(** * ai_medication: the schedule builder and the response parser of [app.py]

    A shallow embedding of the two pieces of [app.py] that compute something
    locally: [generate_schedule] (lines 73-116) and the text handling of
    [analyze_prescription] (lines 59-70) together with the handler of the
    registration page that stores its result (lines 224-233).

    Python values are modelled as they reach the code: strings are sequences
    of Unicode code points, a medication is a [dict] from string keys to
    arbitrary JSON-shaped values, exceptions are explicit results.  What the
    code takes from the Python runtime and from outside ([str.lower],
    [json.loads], [datetime.now], the model's reply) is a parameter of the
    definitions that use it. *)

From Stdlib Require Import ZArith Ascii String Lia.
From stdpp Require Import gmap list sorting.

#[local] Set Warnings "-register-all".
#[local] Open Scope Z_scope.

(** ** Python strings *)

(** A [str] is the list of its code points. *)
Abbreviation pystr := (list Z).

Definition bytes_of (s : string) : list Z :=
  (fun a => Z.of_nat (nat_of_ascii a)) <$> list_ascii_of_string s.

(** Decoder of the UTF-8 bytes of a literal of this file into code points;
    [need] continuation bytes are still expected for the code point whose
    high bits are [acc]. *)
Fixpoint utf8_go (need : nat) (acc : Z) (bs : list Z) : pystr :=
  match bs with
  | [] => []
  | b :: bs' =>
    match need with
    | O =>
      if b <? 128 then b :: utf8_go 0 0 bs'
      else if b <? 224 then utf8_go 1 (b - 192) bs'
      else if b <? 240 then utf8_go 2 (b - 224) bs'
      else utf8_go 3 (b - 240) bs'
    | S O => (acc * 64 + (b - 128)) :: utf8_go 0 0 bs'
    | S k => utf8_go k (acc * 64 + (b - 128)) bs'
    end
  end.

Definition utf8 (s : string) : pystr := utf8_go 0 0 (bytes_of s).

(** [s.startswith(k)] *)
Fixpoint startswith (k s : pystr) : bool :=
  match k, s with
  | [], _ => true
  | _ :: _, [] => false
  | a :: k', b :: s' => (a =? b) && startswith k' s'
  end.

(** [k in s] for two strings: [k] occurs in [s] as a substring. *)
Fixpoint contains (k s : pystr) : bool :=
  startswith k s ||
  match s with
  | [] => false
  | _ :: s' => contains k s'
  end.

(** [s.split(sep)] for a non-empty [sep]: the pieces between the leftmost
    non-overlapping occurrences of [sep].  [skip] characters of an
    occurrence already recognised are still to be passed over and [cur] is
    the piece being collected. *)
Fixpoint split_go (sep : pystr) (skip : nat) (cur : pystr) (s : pystr) : list pystr :=
  match s with
  | [] => [cur]
  | c :: s' =>
    match skip with
    | S k => split_go sep k cur s'
    | O =>
      if startswith sep s
      then cur :: split_go sep (length sep - 1) [] s'
      else split_go sep 0 (cur ++ [c]) s'
    end
  end.

Definition str_split (sep s : pystr) : list pystr := split_go sep 0 [] s.

(** The characters [str.strip()] removes: those for which [str.isspace]
    holds. *)
Definition is_space (c : Z) : bool :=
  ((9 <=? c) && (c <=? 13)) || ((28 <=? c) && (c <=? 32)) ||
  (c =? 133) || (c =? 160) || (c =? 5760) ||
  ((8192 <=? c) && (c <=? 8202)) || (c =? 8232) || (c =? 8233) ||
  (c =? 8239) || (c =? 8287) || (c =? 12288).

Fixpoint lstrip (s : pystr) : pystr :=
  match s with
  | [] => []
  | c :: s' => if is_space c then lstrip s' else s
  end.

Definition rstrip (s : pystr) : pystr := rev (lstrip (rev s)).

Definition strip (s : pystr) : pystr := rstrip (lstrip s).

(** [str.lower()] belongs to the Python runtime.  It rewrites the string
    character by character: [lower_at before c after] is what the character
    [c] becomes when it stands between [before] and [after] (one to three
    characters; the context matters for the Greek final sigma only). *)
Section Lower.

Variable lower_at : pystr -> Z -> pystr -> pystr.

Fixpoint lower_from (before s : pystr) : pystr :=
  match s with
  | [] => []
  | c :: rest => lower_at before c rest ++ lower_from (before ++ [c]) rest
  end.

Definition str_lower (s : pystr) : pystr := lower_from [] s.

End Lower.

(** The characters of the keyword table below: the space and the Hangul
    syllables U+AC00..U+D7A3.  They have no case. *)
Definition caseless (c : Z) : bool :=
  (c =? 32) || ((44032 <=? c) && (c <=? 55203)).

(** What the development relies on about [str.lower]: a caseless character
    is left alone, and any other character becomes at least one character,
    none of them caseless. *)
Definition lower_spec (lower_at : pystr -> Z -> pystr -> pystr) : Prop :=
  (forall before c after, caseless c = true -> lower_at before c after = [c]) /\
  (forall before c after, caseless c = false ->
     lower_at before c after <> [] /\
     forallb (fun d => negb (caseless d)) (lower_at before c after) = true).

(** [str.lower] on the strings whose cased characters are all ASCII. *)
Definition ascii_lower_at (before : pystr) (c : Z) (after : pystr) : pystr :=
  [if (65 <=? c) && (c <=? 90) then c + 32 else c].

(** ** Python values and exceptions *)

(** The values [json.loads] produces.  A float is kept as its literal. *)
Inductive pyval :=
| PNone
| PBool (b : bool)
| PInt (n : Z)
| PFloat (lit : pystr)
| PStr (s : pystr)
| PList (l : list pyval)
| PDict (d : gmap pystr pyval).

Inductive key :=
| KStr (s : pystr)
| KDate (d : Z).

Inductive exn :=
| KeyError (k : key)
| IndexError
| AttributeError
| TypeError
| JSONDecodeError
| ApiError.

Inductive result (A : Type) :=
| Ok (a : A)
| Raise (e : exn).

Arguments Ok {A} a.
Arguments Raise {A} e.

#[global] Instance result_ret : MRet result := fun A a => Ok a.

#[global] Instance result_bind : MBind result := fun A B f m =>
  match m with
  | Ok a => f a
  | Raise e => Raise e
  end.

(** A loop whose body may raise: [for x in l: s = f(s, x)]. *)
Fixpoint foldM {A S : Type} (f : S -> A -> result S) (l : list A) (s : S) : result S :=
  match l with
  | [] => Ok s
  | x :: l' => s' ← f s x; foldM f l' s'
  end.

Definition is_str (k : pystr) (v : pyval) : bool :=
  match v with
  | PStr s => bool_decide (s = k)
  | _ => false
  end.

(** [k in v] for a string [k]: substring of a string, element of a list,
    key of a dict; anything else is not iterable. *)
Definition py_in (k : pystr) (v : pyval) : result bool :=
  match v with
  | PStr s => Ok (contains k s)
  | PList l => Ok (existsb (is_str k) l)
  | PDict d => Ok (bool_decide (is_Some (d !! k)))
  | _ => Raise TypeError
  end.

(** [v[k]] for a string [k]. *)
Definition py_getitem (v : pyval) (k : pystr) : result pyval :=
  match v with
  | PDict d =>
    match d !! k with
    | Some x => Ok x
    | None => Raise (KeyError (KStr k))
    end
  | _ => Raise TypeError
  end.

(** [v.lower()]: only a string has the method. *)
Definition py_lower (lower_at : pystr -> Z -> pystr -> pystr) (v : pyval) : result pystr :=
  match v with
  | PStr s => Ok (str_lower lower_at s)
  | _ => Raise AttributeError
  end.

(** [l[i]] *)
Definition list_item {A : Type} (l : list A) (i : nat) : result A :=
  match l !! i with
  | Some x => Ok x
  | None => Raise IndexError
  end.

(** A medication record is a dict; [d.get(k, default)] and [d[k]]. *)
Abbreviation medication := (gmap pystr pyval).

Definition dict_get (d : medication) (k : pystr) (dflt : pyval) : pyval :=
  default dflt (d !! k).

Definition dict_item (d : medication) (k : pystr) : result pyval :=
  match d !! k with
  | Some v => Ok v
  | None => Raise (KeyError (KStr k))
  end.

(** ** [generate_schedule] (app.py, lines 73-116) *)

(** The keyword table of lines 83-89 and the frequency markers of lines
    94-96, as the code spells them. *)
Definition kw_morning : pystr := Eval vm_compute in utf8 "아침".
Definition kw_lunch : pystr := Eval vm_compute in utf8 "점심".
Definition kw_evening : pystr := Eval vm_compute in utf8 "저녁".
Definition kw_bedtime : pystr := Eval vm_compute in utf8 "취침".
Definition kw_before_sleep : pystr := Eval vm_compute in utf8 "자기 전".
Definition kw_3_times : pystr := Eval vm_compute in utf8 "3회".
Definition kw_2_times : pystr := Eval vm_compute in utf8 "2회".
Definition once_a_day : pystr := Eval vm_compute in utf8 "1일 1회".

Definition t0800 : pystr := Eval vm_compute in utf8 "08:00".
Definition t1200 : pystr := Eval vm_compute in utf8 "12:00".
Definition t1800 : pystr := Eval vm_compute in utf8 "18:00".
Definition t2200 : pystr := Eval vm_compute in utf8 "22:00".

Definition k_timing : pystr := Eval vm_compute in utf8 "timing".
Definition k_frequency : pystr := Eval vm_compute in utf8 "frequency".
Definition k_name : pystr := Eval vm_compute in utf8 "name".
Definition k_dosage : pystr := Eval vm_compute in utf8 "dosage".

(** Lines 82-90: the slots named by the (lowered) timing text, in the order
    of the four tests. *)
Definition timing_slots (timing : pystr) : list pystr :=
  let times := [] in
  let times := if contains kw_morning timing then times ++ [t0800] else times in
  let times := if contains kw_lunch timing then times ++ [t1200] else times in
  let times := if contains kw_evening timing then times ++ [t1800] else times in
  let times :=
    if contains kw_bedtime timing || contains kw_before_sleep timing
    then times ++ [t2200] else times in
  times.

(** Lines 93-99: the default when the timing text named no slot. *)
Definition frequency_slots (frequency : pyval) : result (list pystr) :=
  three ← py_in kw_3_times frequency;
  if three : bool then Ok [t0800; t1200; t1800]
  else
    two ← py_in kw_2_times frequency;
    if two : bool then Ok [t0800; t1800] else Ok [t0800].

(** The timing text names a bedtime slot, and names some slot at all. *)
Definition mentions_bedtime (timing : pystr) : bool :=
  contains kw_bedtime timing || contains kw_before_sleep timing.

Definition names_a_slot (timing : pystr) : bool :=
  contains kw_morning timing || contains kw_lunch timing ||
  contains kw_evening timing || mentions_bedtime timing.

(** One entry of a day's list (lines 109-114). *)
Record entry := Entry {
  e_medication : pyval;
  e_time : pystr;
  e_dosage : pyval;
  e_taken : bool
}.

(** The schedule maps a date to its entries.  The code keys the dict by
    [date.strftime('%Y-%m-%d')], which names the calendar day one to one;
    the model keys it by the day itself, counted in days (without the
    year-9999 end of [datetime]). *)
Abbreviation schedule := (gmap Z (list entry)).

(** The entries one medication adds to a day: one per time slot, in the
    order of the slots (lines 108-114). *)
Definition doses_of (med : medication) (name : pyval) (times : list pystr) : list entry :=
  (fun t => Entry name t (dict_get med k_dosage (PStr [])) false) <$> times.

Section Schedule.

Variable lower_at : pystr -> Z -> pystr -> pystr.

(** [datetime.now()] is read once per medication and day (line 102);
    [now k] is the calendar day of reading number [k] of a call. *)
Variable now : nat -> Z.

(** Lines 78-99 on the two values fetched from the record. *)
Definition time_slots (timing frequency : pyval) : result (list pystr) :=
  timing ← py_lower lower_at timing;
  let times := timing_slots timing in
  match times with
  | [] => frequency_slots frequency
  | _ :: _ => Ok times
  end.

Definition med_times (med : medication) : result (list pystr) :=
  time_slots (dict_get med k_timing (PStr [])) (dict_get med k_frequency (PStr once_a_day)).

(** Lines 109-114: [schedule[date_str].append({...})]. *)
Definition add_dose (med : medication) (date : Z) (sched : schedule) (time : pystr)
  : result schedule :=
  match sched !! date with
  | None => Raise (KeyError (KDate date))
  | Some doses =>
    name ← dict_item med k_name;
    Ok (<[date := doses ++ [Entry name time (dict_get med k_dosage (PStr [])) false]]> sched)
  end.

(** Lines 102-114: one round of [for day in range(7)].  The state is the
    number of clock readings so far and the schedule. *)
Definition add_day (med : medication) (times : list pystr) (st : nat * schedule) (day : nat)
  : result (nat * schedule) :=
  let date := now st.1 + Z.of_nat day in
  let sched :=
    match st.2 !! date with
    | None => <[date := []]> st.2
    | Some _ => st.2
    end in
  sched ← foldM (add_dose med date) times sched;
  Ok (S st.1, sched).

(** Lines 77-114: one round of [for med in medications]. *)
Definition add_medication (st : nat * schedule) (med : medication) : result (nat * schedule) :=
  times ← med_times med;
  foldM (add_day med times) (seq 0 7) st.

Definition generate_schedule (medications : list medication) : result schedule :=
  st ← foldM add_medication medications (0%nat, ∅);
  Ok st.2.

(** The entries a medication adds to each of its days, when its slots
    resolve and it has a name. *)
Definition entries_of (med : medication) : result (list entry) :=
  times ← med_times med;
  name ← dict_item med k_name;
  Ok (doses_of med name times).

End Schedule.

(** *** Vocabulary for the properties of the builder *)

(** A day of the schedule with [doses] appended, the day created when it
    is new (lines 105-114 as one step). *)
Definition put (date : Z) (doses : list entry) (sched : schedule) : schedule :=
  <[date := default [] (sched !! date) ++ doses]> sched.

(** The seven rounds of lines 101-114 for a medication that adds [doses] a
    day, from [st.1] clock readings and the schedule [st.2]. *)
Definition fill_days (now : nat -> Z) (doses : list entry) (days : list nat)
    (st : nat * schedule) : nat * schedule :=
  foldl (fun st day => (S st.1, put (now st.1 + Z.of_nat day) doses st.2)) st days.

(** The number of entries of a schedule, all days together. *)
Definition total_entries (sched : schedule) : nat :=
  map_fold (fun _ doses n => (length doses + n)%nat) 0%nat sched.

Definition all_untaken (sched : schedule) : Prop :=
  map_Forall (fun _ doses => Forall (fun e => e_taken e = false) doses) sched.

(** The entries of a day whose time is [t]. *)
Definition doses_at (t : pystr) (doses : list entry) : list entry :=
  filter (fun e => e_time e = t) doses.

(** A record as the data model types it: [timing] and [frequency], when
    present, hold strings. *)
Definition str_or_absent (field : option pyval) : bool :=
  match field with
  | None | Some (PStr _) => true
  | Some _ => false
  end.

Definition text_fields (med : medication) : bool :=
  str_or_absent (med !! k_timing) && str_or_absent (med !! k_frequency).

(** The clock shows the day [today] at the readings [from], ..., [from + n - 1]. *)
Definition steady (now : nat -> Z) (today : Z) (from n : nat) : Prop :=
  forall j, (from <= j < from + n)%nat -> now j = today.



(** [sched] has the seven days from [today] on, each with the value [day]
    ([None]: the day is missing), and no other day. *)
Definition week_view (today : Z) (day : option (list entry)) (sched : schedule) : Prop :=
  forall date, sched !! date =
    if bool_decide (today <= date < today + 7) then day else None.

(** *** Sample records *)

Definition amoxicillin : pyval := PStr (utf8 "Amoxicillin").

(** The record of the end-to-end scenario, in the words of the
    specification ... *)
Definition amoxicillin_en : medication :=
  <[k_name := amoxicillin]>
  (<[k_timing := PStr (utf8 "morning, evening after meals")]>
  (<[k_frequency := PStr (utf8 "2 times daily")]> ∅)).

(** ... and in the words of the keyword table. *)
Definition amoxicillin_ko : medication :=
  <[k_name := amoxicillin]>
  (<[k_timing := PStr (utf8 "아침, 저녁 식후")]>
  (<[k_frequency := PStr (utf8 "1일 2회")]> ∅)).

(** A record that has a name and nothing else, and two that share the
    morning slot. *)
Definition name_only : medication := {[ k_name := PStr (utf8 "Aspirin") ]}.

Definition morning_a : medication :=
  <[k_name := PStr (utf8 "A")]> ({[ k_timing := PStr (utf8 "아침") ]}).

Definition morning_b : medication :=
  <[k_name := PStr (utf8 "B")]> ({[ k_timing := PStr (utf8 "아침 식후, 취침 전") ]}).

(** A clock that stays on day 0. *)
Definition day_zero (k : nat) : Z := 0.

(** ** [analyze_prescription] (app.py, lines 56-70) and its caller *)

Definition fence : pystr := Eval vm_compute in utf8 "```".
Definition fence_json : pystr := Eval vm_compute in utf8 "```json".
Definition k_medications : pystr := Eval vm_compute in utf8 "medications".

(** Lines 59-64: the text between the fences, when there is a fence. *)
Definition payload_text (response_text : pystr) : result pystr :=
  if contains fence_json response_text then
    after ← list_item (str_split fence_json response_text) 1;
    list_item (str_split fence after) 0
  else if contains fence response_text then
    after ← list_item (str_split fence response_text) 1;
    list_item (str_split fence after) 0
  else Ok response_text.

(** A payload inside a fenced block: the opening fence, with or without
    the [json] marker, blanks ending the line, the payload, blanks, the
    closing fence. *)
Definition fenced_json (ws1 payload ws2 : pystr) : pystr :=
  fence_json ++ ws1 ++ payload ++ ws2 ++ fence.

Definition fenced_bare (ws1 payload ws2 : pystr) : pystr :=
  fence ++ ws1 ++ payload ++ ws2 ++ fence.

(** A non-empty run of white space. *)
Definition blanks (ws : pystr) : Prop :=
  ws <> [] /\ forallb is_space ws = true.

(** No occurrence of [k] starts inside [a] when [rest] follows [a]. *)
Fixpoint no_start (k a rest : pystr) : Prop :=
  match a with
  | [] => True
  | _ :: a' => startswith k (a ++ rest) = false /\ no_start k a' rest
  end.

(** Sample payloads: the expected object, and an object with a string that
    holds a fenced snippet. *)
Definition quoted (s : pystr) : pystr := [34] ++ s ++ [34].

Definition payload_plain : pystr :=
  utf8 "{" ++ quoted k_medications ++ utf8 ": [{" ++ quoted k_name ++ utf8 ": " ++
  quoted (utf8 "Amoxicillin") ++ utf8 "}]}".

Definition payload_with_fence : pystr :=
  utf8 "{" ++ quoted (utf8 "note") ++ utf8 ": " ++ quoted (utf8 "```[1]```") ++
  utf8 ", " ++ quoted k_medications ++ utf8 ": []}".

Definition payload_no_field : pystr :=
  utf8 "{" ++ quoted (utf8 "error") ++ utf8 ": " ++ quoted (utf8 "unreadable") ++ utf8 "}".

(** What the pages show with [st.error] and [st.success]. *)
Inductive notice :=
| AnalysisError (e : exn)
| CannotAnalyze
| AnalysisDone.

Section Parser.

(** [json.loads] is Python's; it returns a value or raises. *)
Variable json_loads : pystr -> result pyval.

(** Lines 59-67. *)
Definition parse_response (response_text : pystr) : result pyval :=
  text ← payload_text response_text;
  json_loads (strip text).

(** Lines 33-70.  [response] is what [model.generate_content(...).text]
    gives: the reply, or the exception of the call.  Every exception ends
    in [st.error] and [None]. *)
Definition analyze_prescription (response : result pystr) : pyval * list notice :=
  match response ≫= parse_response with
  | Ok parsed => (parsed, [])
  | Raise e => (PNone, [AnalysisError e])
  end.

End Parser.

(** Python's truth value of a JSON value.  A float literal is zero when its
    digits are, or when it rounds to zero: at most 2^-1075. *)
Definition is_digit (c : Z) : bool := (48 <=? c) && (c <=? 57).

Fixpoint span_digits (s : pystr) : pystr * pystr :=
  match s with
  | [] => ([], [])
  | c :: s' =>
    if is_digit c then (c :: (span_digits s').1, (span_digits s').2) else ([], s)
  end.

Definition digits_value (ds : pystr) : Z :=
  fold_left (fun acc c => acc * 10 + (c - 48)) ds 0.

Definition float_nonzero (lit : pystr) : bool :=
  let s := match lit with c :: r => if c =? 45 then r else lit | [] => lit end in
  match s with
  | c :: _ =>
    if is_digit c then
      let (ip, r1) := span_digits s in
      let (fp, r2) :=
        match r1 with
        | d :: r => if d =? 46 then span_digits r else ([], r1)
        | [] => ([], r1)
        end in
      let ex :=
        match r2 with
        | _ :: sg :: r =>
          if sg =? 45 then - digits_value r
          else if sg =? 43 then digits_value r
          else digits_value (sg :: r)
        | _ => 0
        end in
      let m := digits_value (ip ++ fp) in
      let e := ex - Z.of_nat (length fp) in
      negb (m =? 0) && ((0 <=? e) || (10 ^ (- e) <? m * 2 ^ 1075))
    else true
  | [] => true
  end.

Definition truthy (v : pyval) : bool :=
  match v with
  | PNone => false
  | PBool b => b
  | PInt n => negb (n =? 0)
  | PFloat lit => float_nonzero lit
  | PStr s => negb (bool_decide (s = []))
  | PList l => negb (bool_decide (l = []))
  | PDict d => negb (bool_decide (d = ∅))
  end.

(** [st.session_state]: initialised at lines 16-21. *)
Record session := Session {
  api_key : option pystr;
  medications : pyval;
  chat_history : list (pystr * pystr)
}.

Definition initial_session : session := Session None (PList []) [].

(** A session with one medication stored. *)
Definition session_with_amoxicillin : session :=
  Session (Some (utf8 "key")) (PList [PDict amoxicillin_ko]) [].

(** One run of a page handler: the session it leaves, what it showed, and
    the exception that ended it, if one did. *)
Record outcome := Outcome {
  o_session : session;
  o_shown : list notice;
  o_uncaught : option exn
}.

(** Lines 226-233: the analysis button of the registration page. *)
Definition register_medications (json_loads : pystr -> result pyval)
    (response : result pystr) (st : session) : outcome :=
  let (parsed, shown) := analyze_prescription json_loads response in
  match (if truthy parsed then py_in k_medications parsed else Ok false) with
  | Raise e => Outcome st shown (Some e)
  | Ok false => Outcome st (shown ++ [CannotAnalyze]) None
  | Ok true =>
    match py_getitem parsed k_medications with
    | Raise e => Outcome st shown (Some e)
    | Ok meds =>
      Outcome (Session (api_key st) meds (chat_history st)) (shown ++ [AnalysisDone]) None
    end
  end.

(** ** A reference decoder for [json.loads]

    The grammar of RFC 8259 as [json.loads] reads it with its default
    settings: the four blanks, [NaN] and the infinities, strict strings, the
    last value of a repeated key.  The interpreter's limits on nesting depth
    and on the digits of an integer are not part of it.  The theorems below
    hold for every decoder; this one runs the model on concrete replies. *)
Module Json.

Definition blank (c : Z) : bool :=
  (c =? 32) || (c =? 9) || (c =? 10) || (c =? 13).

Fixpoint skip_blanks (s : pystr) : pystr :=
  match s with
  | [] => []
  | c :: s' => if blank c then skip_blanks s' else s
  end.

Definition hex_digit (c : Z) : option Z :=
  if is_digit c then Some (c - 48)
  else if (97 <=? c) && (c <=? 102) then Some (c - 87)
  else if (65 <=? c) && (c <=? 70) then Some (c - 55)
  else None.

Definition hex4 (a b c d : Z) : option Z :=
  x ← hex_digit a; y ← hex_digit b; z ← hex_digit c; w ← hex_digit d;
  Some (((x * 16 + y) * 16 + z) * 16 + w).

Definition simple_escape (c : Z) : option Z :=
  if c =? 34 then Some 34 else if c =? 92 then Some 92
  else if c =? 47 then Some 47 else if c =? 98 then Some 8
  else if c =? 102 then Some 12 else if c =? 110 then Some 10
  else if c =? 114 then Some 13 else if c =? 116 then Some 9
  else None.

(** The rest of a string after its opening quote. *)
Fixpoint scanstring (acc s : pystr) : option (pystr * pystr) :=
  match s with
  | [] => None
  | c :: r =>
    if c =? 34 then Some (acc, r)
    else if c =? 92 then
      match r with
      | [] => None
      | e :: r1 =>
        if e =? 117 then
          match r1 with
          | h1 :: h2 :: h3 :: h4 :: r5 =>
            match hex4 h1 h2 h3 h4 with
            | None => None
            | Some uni =>
              if (55296 <=? uni) && (uni <=? 56319) then
                match r5 with
                | b :: u :: g1 :: g2 :: g3 :: g4 :: r11 =>
                  if (b =? 92) && (u =? 117) then
                    match hex4 g1 g2 g3 g4 with
                    | None => None
                    | Some low =>
                      if (56320 <=? low) && (low <=? 57343)
                      then scanstring (acc ++ [65536 + ((uni - 55296) * 1024 + (low - 56320))]) r11
                      else scanstring (acc ++ [uni]) r5
                    end
                  else scanstring (acc ++ [uni]) r5
                | _ => scanstring (acc ++ [uni]) r5
                end
              else scanstring (acc ++ [uni]) r5
            end
          | _ => None
          end
        else
          match simple_escape e with
          | Some x => scanstring (acc ++ [x]) r1
          | None => None
          end
      end
    else if c <? 32 then None
    else scanstring (acc ++ [c]) r
  end.

(** A number at the head of [s]: an [int] when it has neither fraction nor
    exponent, else a float. *)
Definition scan_number (s : pystr) : option (pyval * pystr) :=
  let (neg, s1) :=
    match s with
    | c :: r => if c =? 45 then (true, r) else (false, s)
    | [] => (false, s)
    end in
  match s1 with
  | [] => None
  | c :: r =>
    if is_digit c then
      let (ip, r1) := if c =? 48 then ([48], r) else span_digits s1 in
      let (fp, r2) :=
        match r1 with
        | d :: r' =>
          if (d =? 46) && negb (bool_decide ((span_digits r').1 = []))
          then span_digits r' else ([], r1)
        | [] => ([], r1)
        end in
      let (isexp, r3) :=
        match r2 with
        | e :: r' =>
          if (e =? 101) || (e =? 69) then
            let r'' :=
              match r' with
              | sg :: t => if (sg =? 43) || (sg =? 45) then t else r'
              | [] => r'
              end in
            if bool_decide ((span_digits r'').1 = []) then (false, r2)
            else (true, (span_digits r'').2)
          else (false, r2)
        | [] => (false, r2)
        end in
      if bool_decide (fp = []) && negb isexp
      then Some (PInt (if neg then - digits_value ip else digits_value ip), r3)
      else Some (PFloat (take (length s - length r3) s), r3)
    else None
  end.

Definition lit_null : pystr := Eval vm_compute in utf8 "null".
Definition lit_true : pystr := Eval vm_compute in utf8 "true".
Definition lit_false : pystr := Eval vm_compute in utf8 "false".
Definition lit_nan : pystr := Eval vm_compute in utf8 "NaN".
Definition lit_inf : pystr := Eval vm_compute in utf8 "Infinity".
Definition lit_neg_inf : pystr := Eval vm_compute in utf8 "-Infinity".

Definition scan_literal (s : pystr) : option (pyval * pystr) :=
  if startswith lit_null s then Some (PNone, drop 4 s)
  else if startswith lit_true s then Some (PBool true, drop 4 s)
  else if startswith lit_false s then Some (PBool false, drop 5 s)
  else if startswith lit_nan s then Some (PFloat lit_nan, drop 3 s)
  else if startswith lit_inf s then Some (PFloat lit_inf, drop 8 s)
  else if startswith lit_neg_inf s then Some (PFloat lit_neg_inf, drop 9 s)
  else scan_number s.

(** [scan n s]: the value at the head of [s]; [elements] and [members] read
    the rest of an array and of an object from the head of an item.  [n]
    bounds the number of values read. *)
Fixpoint scan (n : nat) (s : pystr) : option (pyval * pystr) :=
  match n with
  | O => None
  | S n' =>
    match s with
    | [] => None
    | c :: r =>
      if c =? 34 then
        match scanstring [] r with
        | Some (str, r') => Some (PStr str, r')
        | None => None
        end
      else if c =? 123 then
        match skip_blanks r with
        | d :: r' => if d =? 125 then Some (PDict ∅, r') else members n' ∅ (d :: r')
        | [] => None
        end
      else if c =? 91 then
        match skip_blanks r with
        | d :: r' => if d =? 93 then Some (PList [], r') else elements n' [] (d :: r')
        | [] => None
        end
      else scan_literal s
    end
  end
with elements (n : nat) (acc : list pyval) (s : pystr) : option (pyval * pystr) :=
  match n with
  | O => None
  | S n' =>
    match scan n' s with
    | None => None
    | Some (v, r) =>
      match skip_blanks r with
      | d :: r' =>
        if d =? 93 then Some (PList (acc ++ [v]), r')
        else if d =? 44 then elements n' (acc ++ [v]) (skip_blanks r')
        else None
      | [] => None
      end
    end
  end
with members (n : nat) (acc : gmap pystr pyval) (s : pystr) : option (pyval * pystr) :=
  match n with
  | O => None
  | S n' =>
    match s with
    | [] => None
    | q :: r =>
      if q =? 34 then
        match scanstring [] r with
        | None => None
        | Some (k, r1) =>
          match skip_blanks r1 with
          | col :: r2 =>
            if col =? 58 then
              match scan n' (skip_blanks r2) with
              | None => None
              | Some (v, r3) =>
                match skip_blanks r3 with
                | d :: r' =>
                  if d =? 125 then Some (PDict (<[k := v]> acc), r')
                  else if d =? 44 then members n' (<[k := v]> acc) (skip_blanks r')
                  else None
                | [] => None
                end
              end
            else None
          | [] => None
          end
        end
      else None
    end
  end.

Definition loads (s : pystr) : result pyval :=
  match scan (2 * length s + 2) (skip_blanks s) with
  | Some (v, r) =>
    match skip_blanks r with
    | [] => Ok v
    | _ :: _ => Raise JSONDecodeError
    end
  | None => Raise JSONDecodeError
  end.

End Json.

(** ** Further vocabulary *)

(** The four slots the code can name, in the order of its tests. *)
Definition canonical_slots : list pystr := [t0800; t1200; t1800; t2200].

(** The values on which [k in v] does not raise. *)
Definition iterable (v : pyval) : bool :=
  match v with
  | PStr _ | PList _ | PDict _ => true
  | _ => false
  end.

(** The exception a record makes one round of lines 77-114 raise, if any:
    that of its slots, else the missing name. *)
Definition record_error (lower_at : pystr -> Z -> pystr -> pystr) (med : medication)
  : option exn :=
  match med_times lower_at med with
  | Raise e => Some e
  | Ok _ =>
    match med !! k_name with
    | None => Some (KeyError (KStr k_name))
    | Some _ => None
    end
  end.

(** The keys [generate_schedule] reads. *)
Definition read_keys : list pystr := [k_timing; k_frequency; k_name; k_dosage].

(** ** The schedule page (app.py, lines 258-284) *)

(** Python's order on strings: code point by code point, a proper prefix
    first. *)
Fixpoint str_le (a b : pystr) : bool :=
  match a, b with
  | [], _ => true
  | _ :: _, [] => false
  | x :: a', y :: b' => (x <? y) || ((x =? y) && str_le a' b')
  end.

(** [sorted(l, key=key)]: ascending and stable, an element going before the
    first one whose key is not smaller. *)
Section Sorted.

Context {A K : Type} (key : A -> K) (le : K -> K -> bool).

Fixpoint insert_sorted (x : A) (l : list A) : list A :=
  match l with
  | [] => [x]
  | y :: l' => if le (key x) (key y) then x :: l else y :: insert_sorted x l'
  end.

Fixpoint py_sorted (l : list A) : list A :=
  match l with
  | [] => []
  | x :: l' => insert_sorted x (py_sorted l')
  end.

End Sorted.

(** Line 261: [sorted(schedule.keys())[:7]].  The code sorts the date
    strings; in the form YYYY-MM-DD with a year of four digits their order
    is that of the days, by which the model sorts. *)
Definition shown_dates (sched : schedule) : list Z :=
  take 7 (py_sorted id Z.leb (map_to_list sched).*1).

(** Line 267: the entries of a day by their time. *)
Definition day_items (sched : schedule) (date : Z) : result (list entry) :=
  match sched !! date with
  | Some doses => Ok (py_sorted e_time str_le doses)
  | None => Raise (KeyError (KDate date))
  end.

(** Line 269: the number of columns asked of [st.columns]. *)
Definition day_columns (items : list entry) : nat :=
  match items with
  | [] => 1
  | _ :: _ => length items
  end.

(** What the page draws for a day: its date, the columns, and for each item
    its column (lines 271-272) and the entry whose time, name, dosage and
    check box it shows there. *)
Record day_view := DayView {
  v_date : Z;
  v_columns : nat;
  v_items : list (nat * entry)
}.

(** Lines 261-284. *)
Definition schedule_page (sched : schedule) : result (list day_view) :=
  foldM (fun views date =>
    items ← day_items sched date;
    Ok (views ++ [DayView date (day_columns items) (imap (fun idx item => (idx, item)) items)]))
    (shown_dates sched) [].

(** The seven days from [today] on. *)
Definition week_from (today : Z) : list Z :=
  [today; today + 1; today + 2; today + 3; today + 4; today + 5; today + 6].

(** The entries of a day by slot, slot after slot. *)
Definition by_slot (doses : list entry) : list entry :=
  doses_at t0800 doses ++ doses_at t1200 doses ++ doses_at t1800 doses ++
  doses_at t2200 doses.

(** ** The two prompt helpers (app.py, lines 119-171) and the chat page
    (lines 340-364) *)

(** [for x in v]: the elements of a list, the characters of a string, the
    keys of a dict (the code below only ever indexes them by a string, so
    their order makes no difference to it). *)
Definition py_iter (v : pyval) : result (list pyval) :=
  match v with
  | PList l => Ok l
  | PStr s => Ok ((fun c => PStr [c]) <$> s)
  | PDict d => Ok (PStr <$> (map_to_list d).*1)
  | _ => Raise TypeError
  end.

(** [[f(x) for x in l]] for an [f] that may raise. *)
Fixpoint for_each {A B : Type} (f : A -> result B) (l : list A) : result (list B) :=
  match l with
  | [] => Ok []
  | x :: l' => y ← f x; ys ← for_each f l'; Ok (y :: ys)
  end.

Definition as_str (v : pyval) : result pystr :=
  match v with
  | PStr s => Ok s
  | _ => Raise TypeError
  end.

Fixpoint str_join (sep : pystr) (items : list pystr) : pystr :=
  match items with
  | [] => []
  | [x] => x
  | x :: rest => x ++ sep ++ str_join sep rest
  end.

(** [sep.join(items)]: every item has to be a string. *)
Definition py_join (sep : pystr) (items : list pyval) : result pystr :=
  strs ← for_each as_str items;
  Ok (str_join sep strs).

Definition comma : pystr := Eval vm_compute in utf8 ", ".

(** [', '.join([med['name'] for med in medications])] (lines 124 and 129,
    line 152). *)
Definition joined_names (medications : pyval) : result pystr :=
  meds ← py_iter medications;
  names ← for_each (fun med => py_getitem med k_name) meds;
  py_join comma names.

(** Lines 126-139. *)
Definition interaction_prompt (names : pystr) : pystr :=
  utf8 "
        다음 약물들을 함께 복용할 때 주의해야 할 상호작용이나 부작용이 있는지 알려주세요:
        
        " ++
  names ++
  utf8 "
        
        다음 형식으로 답변해주세요:
        
        1. 심각한 상호작용: (있다면 설명, 없으면 " ++
  [34] ++
  utf8 "없음" ++
  [34] ++
  utf8 ")
        2. 주의가 필요한 조합: (있다면 설명, 없으면 " ++
  [34] ++
  utf8 "없음" ++
  [34] ++
  utf8 ")
        3. 일반적인 복용 권장사항
        4. 피해야 할 음식이나 음료
        
        의학적으로 정확하고 신중하게 답변해주세요.
        ".

(** Lines 154-166. *)
Definition chat_prompt (context user_message : pystr) : pystr :=
  utf8 "
        당신은 친절한 약사 도우미입니다. 환자의 약 복용 관련 질문에 답변해주세요.
        
        " ++
  context ++
  utf8 "
        
        환자 질문: " ++
  user_message ++
  utf8 "
        
        주의사항:
        - 의학적으로 정확하고 신중하게 답변하세요
        - 심각한 증상이나 응급 상황에는 즉시 의사/약사 상담을 권유하세요
        - 복용 중인 약물과 관련된 정보를 우선적으로 제공하세요
        - 친절하고 이해하기 쉽게 설명하세요
        ".

Definition chat_context (names : pystr) : pystr := utf8 "현재 복용 중인 약물: " ++ names.

Definition interaction_failed : pystr := utf8 "상호작용 체크 중 오류 발생: ".
Definition chat_failed : pystr := utf8 "응답 생성 중 오류 발생: ".

Definition role_user : pystr := Eval vm_compute in utf8 "user".
Definition role_assistant : pystr := Eval vm_compute in utf8 "assistant".

Section Model.

(** [model.generate_content(prompt).text]: the reply to a prompt, or the
    exception of the call; and [str(e)], the text of an exception.  The
    constructor [genai.GenerativeModel] of lines 122 and 150 only records the
    name it is given and is taken to return. *)
Variable generate_content : pystr -> result pystr.
Variable exn_text : exn -> pystr.

(** Lines 119-144. *)
Definition check_drug_interactions (medications : pyval) : pystr :=
  match (names ← joined_names medications; generate_content (interaction_prompt names)) with
  | Ok text => text
  | Raise e => interaction_failed ++ exn_text e
  end.

(** Lines 147-171. *)
Definition chatbot_response (user_message : pystr) (medications_context : pyval) : pystr :=
  match (names ← joined_names medications_context;
         generate_content (chat_prompt (chat_context names) user_message)) with
  | Ok text => text
  | Raise e => chat_failed ++ exn_text e
  end.

(** Lines 345-358: a question typed into the chat box; [None] and the empty
    string submit nothing. *)
Definition submit_question (user_input : option pystr) (st : session) : session :=
  match user_input with
  | None | Some [] => st
  | Some question =>
    let history := chat_history st ++ [(role_user, question)] in
    let response := chatbot_response question (medications st) in
    Session (api_key st) (medications st) (history ++ [(role_assistant, response)])
  end.

End Model.

(** Lines 361-364: the button is drawn only when there is a transcript. *)
Definition clear_chat (st : session) : session :=
  match chat_history st with
  | [] => st
  | _ :: _ => Session (api_key st) (medications st) []
  end.

(** Lines 239-246: the panel of the stored records indexes every record
    by ['name'] before anything else; it raises when the list cannot be
    iterated or a record is no dict with that key. *)
Definition list_renders (medications : pyval) : bool :=
  match (meds ← py_iter medications; for_each (fun med => py_getitem med k_name) meds) with
  | Ok _ => true
  | Raise _ => false
  end.

(** Lines 236-250: the delete button stands below the panel, inside
    [if st.session_state.medications]; a run reaches it only when the list
    is truthy and the panel above it was drawn. *)
Definition delete_all (st : session) : session :=
  if truthy (medications st) && list_renders (medications st)
  then Session (api_key st) (PList []) (chat_history st)
  else st.

(** What a user can do to the session, one action per run of the script,
    each with what the model service answers during that run. *)
Inductive action :=
| Analyze (response : result pystr)
| DeleteAll
| Ask (user_input : option pystr) (generate_content : pystr -> result pystr)
| ClearChat.

Definition act (json_loads : pystr -> result pyval) (exn_text : exn -> pystr)
    (a : action) (st : session) : session :=
  match a with
  | Analyze response => o_session (register_medications json_loads response st)
  | DeleteAll => delete_all st
  | Ask user_input generate_content =>
    submit_question generate_content exn_text user_input st
  | ClearChat => clear_chat st
  end.

(** Lines 178-186: the key typed into the sidebar is stored when it is not
    empty. *)
Definition sidebar (api_key_input : pystr) (st : session) : session :=
  match api_key_input with
  | [] => st
  | _ :: _ => Session (Some api_key_input) (medications st) (chat_history st)
  end.

(** Line 200: [if not st.session_state.api_key]. *)
Definition has_key (st : session) : bool :=
  match api_key st with
  | Some (_ :: _) => true
  | _ => false
  end.

(** One run of the script, taken to its end: the sidebar, the stop at line
    203 when there is no key, then the page with the user's action. *)
Definition run_script (json_loads : pystr -> result pyval) (exn_text : exn -> pystr)
    (api_key_input : pystr) (a : action) (st : session) : session :=
  let st := sidebar api_key_input st in
  if has_key st then act json_loads exn_text a st else st.

(** The sessions a user can bring about. *)
Inductive reachable (json_loads : pystr -> result pyval) (exn_text : exn -> pystr)
  : session -> Prop :=
| reachable_initial : reachable json_loads exn_text initial_session
| reachable_run st api_key_input a :
    reachable json_loads exn_text st ->
    reachable json_loads exn_text (run_script json_loads exn_text api_key_input a st).

(** A transcript made of questions each followed by its answer. *)
Fixpoint paired (history : list (pystr * pystr)) : Prop :=
  match history with
  | [] => True
  | [_] => False
  | q :: a :: rest => q.1 = role_user /\ a.1 = role_assistant /\ paired rest
  end.

(** The defaults of lines 78, 79 and 112, and a record with the three
    fields it may lack set to them. *)
Definition field_defaults : medication :=
  {[ k_timing := PStr []; k_frequency := PStr once_a_day; k_dosage := PStr [] ]}.

Definition with_defaults (med : medication) : medication := med ∪ field_defaults.

(** The decoded replies that are truthy and make line 228 or line 229
    raise: ['medications' in result] on a number or [True], and
    [result['medications']] on a string or a list that holds the word. *)
Definition unreported (parsed : pyval) : bool :=
  truthy parsed &&
  match parsed with
  | PBool _ | PInt _ | PFloat _ => true
  | PStr s => contains k_medications s
  | PList l => existsb (is_str k_medications) l
  | PNone | PDict _ => false
  end.

(** What the page draws for a date of a schedule (lines 267-272). *)
Definition view_of (sched : schedule) (date : Z) : day_view :=
  let doses := default [] (sched !! date) in
  DayView date (length doses) (imap (fun idx item => (idx, item)) (by_slot doses)).

(** *** Further samples *)

(** A clock that passes midnight just before reading number [k]. *)
Definition day_turns_at (k n : nat) : Z := if (n <? k)%nat then 0 else 1.

(** Named records outside the typing of the data model. *)
Definition null_timing : medication := <[k_timing := PNone]> name_only.

Definition numeric_frequency : medication := <[k_frequency := PInt 3]> name_only.

(** A [str.lower] that changes nothing: the one of a runtime on texts
    without cased characters. *)
Definition plain_lower_at (before : pystr) (c : Z) (after : pystr) : pystr := [c].

(** A service that answers every prompt with the same text, and a rendering
    of exceptions. *)
Definition canned_reply (prompt : pystr) : result pystr := Ok (utf8 "식후에 드세요.").

Definition sample_exn_text (e : exn) : pystr :=
  match e with
  | KeyError (KStr k) => [39] ++ k ++ [39]
  | KeyError (KDate _) => utf8 "date"
  | IndexError => utf8 "list index out of range"
  | AttributeError => utf8 "object has no attribute"
  | TypeError => utf8 "wrong type"
  | JSONDecodeError => utf8 "Expecting value"
  | ApiError => utf8 "service unavailable"
  end.

Definition prose_before : pystr := Eval vm_compute in utf8 "Here is the data:
".

Definition prose_after : pystr := Eval vm_compute in utf8 "
Tell me if you need more.".

Definition k_warnings : pystr := Eval vm_compute in utf8 "warnings".

(** * Properties *)

(** ** Substrings and [str.lower] *)

Lemma startswith_nil (s : pystr) : startswith [] s = true.
Proof. by destruct s. Qed.

Lemma contains_cons (k : pystr) (c : Z) (s : pystr) :
  contains k (c :: s) = startswith k (c :: s) || contains k s.
Proof. reflexivity. Qed.

Lemma startswith_contains (k s : pystr) :
  startswith k s = true -> contains k s = true.
Proof. destruct s; simpl; intros ->; reflexivity. Qed.

(** A block of characters none of which starts [k] hides no occurrence. *)
Lemma contains_skip_block (a : Z) (k block rest : pystr) :
  Forall (fun d => d <> a) block ->
  contains (a :: k) (block ++ rest) = contains (a :: k) rest.
Proof.
  induction 1 as [|d block Hd _ IH]; [reflexivity|].
  simpl app. rewrite contains_cons, IH. simpl.
  destruct (Z.eqb_spec a d); [congruence | reflexivity].
Qed.

Section LowerFacts.

Variable lower_at : pystr -> Z -> pystr -> pystr.
Hypothesis lower_ok : lower_spec lower_at.

Lemma lower_at_caseless before c rest :
  caseless c = true -> lower_at before c rest = [c].
Proof. apply lower_ok. Qed.

Lemma lower_at_cased before c rest :
  caseless c = false ->
  exists d ds, lower_at before c rest = d :: ds /\
    Forall (fun x => caseless x = false) (d :: ds).
Proof.
  intros Hc. destruct lower_ok as [_ H]. destruct (H before c rest Hc) as [Hne Hall].
  destruct (lower_at before c rest) as [|d ds]; [done|].
  exists d, ds. split; [done|].
  apply Forall_forall. intros x Hx.
  rewrite forallb_forall in Hall. apply negb_true_iff, Hall.
  by apply list_elem_of_In.
Qed.

Lemma startswith_lower (k : pystr) :
  forallb caseless k = true ->
  forall before s, startswith k (lower_from lower_at before s) = startswith k s.
Proof.
  induction k as [|a k IH]; intros Hk before s.
  { by rewrite !startswith_nil. }
  simpl in Hk. apply andb_true_iff in Hk as [Ha Hk].
  destruct s as [|c rest]; [reflexivity|]. simpl lower_from.
  destruct (caseless c) eqn:Hc.
  - rewrite lower_at_caseless by done. simpl. by rewrite IH.
  - destruct (lower_at_cased before c rest Hc) as (d & ds & -> & Hall).
    apply Forall_cons in Hall as [Hd _]. simpl.
    destruct (Z.eqb_spec a d) as [->|_]; [congruence|].
    destruct (Z.eqb_spec a c) as [->|_]; [congruence|]. reflexivity.
Qed.

Lemma contains_lower_from (k : pystr) :
  forallb caseless k = true ->
  forall s before, contains k (lower_from lower_at before s) = contains k s.
Proof.
  intros Hk. induction s as [|c rest IH]; intros before; [reflexivity|].
  rewrite contains_cons, <- (IH (before ++ [c])).
  rewrite <- (startswith_lower k Hk before (c :: rest)). simpl lower_from.
  destruct (caseless c) eqn:Hc.
  - rewrite lower_at_caseless by done. reflexivity.
  - destruct (lower_at_cased before c rest Hc) as (d & ds & -> & Hall).
    destruct k as [|a k]; [reflexivity|].
    simpl in Hk. apply andb_true_iff in Hk as [Ha _].
    assert (Hblock : Forall (fun x => x <> a) (d :: ds)).
    { eapply Forall_impl; [exact Hall|]. simpl. intros x Hx ->. congruence. }
    rewrite (contains_skip_block a k (d :: ds) _ Hblock).
    apply Forall_cons in Hblock as [Hd _]. simpl.
    destruct (Z.eqb_spec a d); [congruence|]. reflexivity.
Qed.

(** Lowering the text neither hides nor creates a keyword of caseless
    characters. *)
Lemma contains_lower (k s : pystr) :
  forallb caseless k = true ->
  contains k (str_lower lower_at s) = contains k s.
Proof. intros Hk. apply contains_lower_from, Hk. Qed.

Lemma timing_slots_lower (s : pystr) :
  timing_slots (str_lower lower_at s) = timing_slots s.
Proof.
  unfold timing_slots. by rewrite !contains_lower.
Qed.

End LowerFacts.

(** The ASCII instance of [str.lower] meets [lower_spec]. *)
Ltac zbool :=
  repeat match goal with
  | |- context [?a =? ?b] => destruct (Z.eqb_spec a b)
  | |- context [?a <=? ?b] => destruct (Z.leb_spec a b)
  | H : context [?a =? ?b] |- _ => destruct (Z.eqb_spec a b)
  | H : context [?a <=? ?b] |- _ => destruct (Z.leb_spec a b)
  end; simpl in *; try done; try lia.

Lemma ascii_lower_spec : lower_spec ascii_lower_at.
Proof.
  split; intros before c rest Hc; unfold ascii_lower_at, caseless in *.
  - f_equal. zbool.
  - split; [done|]. simpl. rewrite andb_true_r. apply negb_true_iff.
    zbool.
Qed.

(** ** The time-slot resolver *)

Section Resolver.

Variable lower_at : pystr -> Z -> pystr -> pystr.
Hypothesis lower_ok : lower_spec lower_at.

Lemma time_slots_str (timing : pystr) (frequency : pyval) :
  time_slots lower_at (PStr timing) frequency =
  match timing_slots timing with
  | [] => frequency_slots frequency
  | t :: ts => Ok (t :: ts)
  end.
Proof.
  unfold time_slots, py_lower. cbn [mbind result_bind].
  rewrite (timing_slots_lower _ lower_ok).
  by destruct (timing_slots timing).
Qed.

Lemma timing_slots_nil (timing : pystr) :
  timing_slots timing = [] <-> names_a_slot timing = false.
Proof.
  unfold timing_slots, names_a_slot, mentions_bedtime.
  destruct (contains kw_morning timing), (contains kw_lunch timing),
    (contains kw_evening timing),
    (contains kw_bedtime timing || contains kw_before_sleep timing);
    simpl; split; (done || discriminate).
Qed.

(** C3, as the code has it: a timing text with the morning, lunch and
    evening keywords, in whatever order they stand, resolves to 08:00, 12:00,
    18:00 in this order, followed by 22:00 exactly when the text also has a
    bedtime keyword. *)
Theorem resolver_three_meals (timing : pystr) (frequency : pyval) :
  contains kw_morning timing = true ->
  contains kw_lunch timing = true ->
  contains kw_evening timing = true ->
  time_slots lower_at (PStr timing) frequency =
  Ok ([t0800; t1200; t1800] ++ (if mentions_bedtime timing then [t2200] else [])).
Proof.
  intros Hm Hl He. rewrite time_slots_str.
  unfold timing_slots, mentions_bedtime. rewrite Hm, Hl, He.
  by destruct (contains kw_bedtime timing || contains kw_before_sleep timing).
Qed.


(** C5: the resolver never raises on two strings and never returns the
    empty list; and once the timing text names a slot the frequency plays no
    part, whatever it holds. *)
Theorem resolver_total_timing_wins :
  (forall timing frequency : pystr,
     exists slots, time_slots lower_at (PStr timing) (PStr frequency) = Ok slots /\
       slots <> []) /\
  (forall (timing : pystr) (frequency frequency' : pyval),
     names_a_slot timing = true ->
     time_slots lower_at (PStr timing) frequency = Ok (timing_slots timing) /\
     time_slots lower_at (PStr timing) frequency =
     time_slots lower_at (PStr timing) frequency').
Proof.
  split.
  - intros timing frequency. rewrite time_slots_str.
    destruct (timing_slots timing) as [|t ts] eqn:Hts; [|by eexists].
    unfold frequency_slots. simpl.
    destruct (contains kw_3_times frequency); simpl; [by eexists|].
    destruct (contains kw_2_times frequency); by eexists.
  - intros timing frequency frequency' Hyes. rewrite !time_slots_str.
    destruct (timing_slots timing) as [|t ts] eqn:Hts; [|done].
    apply timing_slots_nil in Hts. congruence.
Qed.

End Resolver.

(** ** The weekly schedule builder *)

Lemma foldM_app {A S : Type} (f : S -> A -> result S) (l1 l2 : list A) (s : S) :
  foldM f (l1 ++ l2) s = foldM f l1 s ≫= foldM f l2.
Proof.
  revert s. induction l1 as [|x l1 IH]; intros s; [reflexivity|].
  simpl. destruct (f s x); [apply IH | reflexivity].
Qed.

Lemma foldM_ext {A S : Type} (f g : S -> A -> result S) (l : list A) (s : S) :
  (forall s x, f s x = g s x) -> foldM f l s = foldM g l s.
Proof.
  intros Hfg. revert s. induction l as [|x l IH]; intros s; [reflexivity|].
  simpl. rewrite Hfg. destruct (g s x); [apply IH | reflexivity].
Qed.

Lemma foldM_pure {A S : Type} (g : S -> A -> S) (l : list A) (s : S) :
  foldM (fun s x => Ok (g s x)) l s = Ok (foldl g s l).
Proof. revert s. induction l as [|x l IH]; intros s; [reflexivity | apply IH]. Qed.

Lemma lookup_put (date date' : Z) (doses : list entry) (sched : schedule) :
  put date doses sched !! date' =
  if decide (date = date') then Some (default [] (sched !! date) ++ doses)
  else sched !! date'.
Proof. unfold put. by rewrite lookup_insert. Qed.

Lemma total_entries_put (date : Z) (doses : list entry) (sched : schedule) :
  total_entries (put date doses sched) = (total_entries sched + length doses)%nat.
Proof.
  unfold total_entries, put.
  assert (Hcomm : forall (m : schedule) (j1 j2 : Z) (z1 z2 : list entry) (y : nat),
    j1 ≠ j2 -> m !! j1 = Some z1 -> m !! j2 = Some z2 ->
    (length z1 + (length z2 + y) = length z2 + (length z1 + y))%nat).
  { intros. lia. }
  destruct (sched !! date) as [old|] eqn:Hold; simpl.
  - rewrite <- insert_delete_eq.
    rewrite map_fold_insert_L; [|apply Hcomm|apply lookup_delete_eq].
    rewrite (map_fold_delete_L _ _ date old sched); [|apply Hcomm|done].
    rewrite length_app. lia.
  - rewrite map_fold_insert_L; [|apply Hcomm|done]. lia.
Qed.

Lemma all_untaken_put (date : Z) (doses : list entry) (sched : schedule) :
  Forall (fun e => e_taken e = false) doses ->
  all_untaken sched -> all_untaken (put date doses sched).
Proof.
  intros Hd Hs. unfold all_untaken, put. apply map_Forall_insert_2; [|done].
  apply Forall_app. split; [|done].
  destruct (sched !! date) as [old|] eqn:Hold; simpl; [|done].
  exact (Hs date old Hold).
Qed.

Lemma doses_of_untaken med name times :
  Forall (fun e => e_taken e = false) (doses_of med name times).
Proof. unfold doses_of. apply Forall_fmap. by apply Forall_true. Qed.

Section Builder.

Variable lower_at : pystr -> Z -> pystr -> pystr.
Variable now : nat -> Z.

Lemma add_dose_ok med name date time sched old :
  med !! k_name = Some name ->
  sched !! date = Some old ->
  add_dose med date sched time =
  Ok (<[date := old ++ doses_of med name [time]]> sched).
Proof. intros Hname Hold. unfold add_dose, dict_item. by rewrite Hold, Hname. Qed.

(** Lines 108-114 with the name present: the day gets the doses. *)
Lemma add_doses_ok med name date times sched old :
  med !! k_name = Some name ->
  sched !! date = Some old ->
  foldM (add_dose med date) times sched =
  Ok (<[date := old ++ doses_of med name times]> sched).
Proof.
  intros Hname. revert sched old.
  induction times as [|t times IH]; intros sched old Hold; cbn [foldM].
  - unfold doses_of. simpl. rewrite app_nil_r. by rewrite insert_id.
  - erewrite add_dose_ok by done. cbn [mbind result_bind].
    erewrite IH by apply lookup_insert_eq.
    rewrite insert_insert_eq. unfold doses_of. simpl.
    by rewrite <- app_assoc.
Qed.

(** Lines 108-114 with the name missing: the first slot raises. *)
Lemma add_doses_no_name med date t times sched old :
  med !! k_name = None ->
  sched !! date = Some old ->
  foldM (add_dose med date) (t :: times) sched = Raise (KeyError (KStr k_name)).
Proof.
  intros Hname Hold. cbn [foldM]. unfold add_dose, dict_item. by rewrite Hold, Hname.
Qed.

Lemma add_day_ok med name times st day :
  med !! k_name = Some name ->
  add_day now med times st day =
  Ok (S st.1, put (now st.1 + Z.of_nat day) (doses_of med name times) st.2).
Proof.
  intros Hname. unfold add_day, put.
  destruct (st.2 !! (now st.1 + Z.of_nat day)) as [old|] eqn:Hold; simpl.
  - by erewrite add_doses_ok.
  - erewrite add_doses_ok; [|done|apply lookup_insert_eq].
    simpl. by rewrite insert_insert_eq.
Qed.

Lemma add_day_no_name med t times st day :
  med !! k_name = None ->
  add_day now med (t :: times) st day = Raise (KeyError (KStr k_name)).
Proof.
  intros Hname. unfold add_day.
  destruct (st.2 !! (now st.1 + Z.of_nat day)) as [old|] eqn:Hold.
  - by erewrite add_doses_no_name.
  - erewrite add_doses_no_name; [done|done|apply lookup_insert_eq].
Qed.

(** One medication with a name and resolved slots: seven pure steps. *)
Lemma add_medication_ok med name times st :
  med !! k_name = Some name ->
  med_times lower_at med = Ok times ->
  add_medication lower_at now st med =
  Ok (fill_days now (doses_of med name times) (seq 0 7) st).
Proof.
  intros Hname Htimes. unfold add_medication. rewrite Htimes.
  cbn [mbind result_bind].
  rewrite (foldM_ext _ (fun st day =>
    Ok (S st.1, put (now st.1 + Z.of_nat day) (doses_of med name times) st.2))).
  - apply foldM_pure.
  - intros s x. by apply add_day_ok.
Qed.

Lemma add_medication_no_name med t times st :
  med !! k_name = None ->
  med_times lower_at med = Ok (t :: times) ->
  add_medication lower_at now st med = Raise (KeyError (KStr k_name)).
Proof.
  intros Hname Htimes. unfold add_medication. rewrite Htimes.
  cbn [mbind result_bind]. simpl seq. cbn [foldM].
  by rewrite add_day_no_name.
Qed.

Lemma fill_days_clock doses days st :
  (fill_days now doses days st).1 = (st.1 + length days)%nat.
Proof.
  revert st. induction days as [|d days IH]; intros st; simpl; [lia|].
  unfold fill_days in *. simpl. rewrite IH. simpl. lia.
Qed.

Lemma fill_days_total doses days st :
  total_entries (fill_days now doses days st).2 =
  (total_entries st.2 + length days * length doses)%nat.
Proof.
  revert st. induction days as [|d days IH]; intros st; simpl; [lia|].
  unfold fill_days in *. simpl. rewrite IH. simpl.
  rewrite total_entries_put. lia.
Qed.

Lemma fill_days_untaken doses days st :
  Forall (fun e => e_taken e = false) doses ->
  all_untaken st.2 -> all_untaken (fill_days now doses days st).2.
Proof.
  intros Hd. revert st. induction days as [|d days IH]; intros st Hs; [done|].
  unfold fill_days in *. simpl. apply IH. simpl. by apply all_untaken_put.
Qed.

Lemma fill_days_cons doses d days st :
  fill_days now doses (d :: days) st =
  fill_days now doses days (S st.1, put (now st.1 + Z.of_nat d) doses st.2).
Proof. reflexivity. Qed.

(** With a steady clock the rounds [m], ..., [m + n - 1] extend exactly the
    days [today + m], ..., [today + m + n - 1]. *)
Lemma fill_days_steady today doses n :
  forall m st,
  steady now today st.1 n ->
  forall date,
    (fill_days now doses (seq m n) st).2 !! date =
    if bool_decide (today + Z.of_nat m <= date < today + Z.of_nat m + Z.of_nat n)
    then Some (default [] (st.2 !! date) ++ doses)
    else st.2 !! date.
Proof.
  induction n as [|n IH]; intros m st Hclock date.
  { simpl. rewrite bool_decide_eq_false_2 by lia. reflexivity. }
  cbn [seq]. rewrite fill_days_cons.
  rewrite IH; cbn [fst snd].
  - rewrite lookup_put, (Hclock st.1) by lia.
    repeat case_bool_decide; repeat case_decide; try lia; try done.
    subst date. done.
  - intros j Hj. apply Hclock. lia.
Qed.

Lemma fill_week_view today doses day st :
  steady now today st.1 7 ->
  week_view today day st.2 ->
  week_view today (Some (default [] day ++ doses)) (fill_days now doses (seq 0 7) st).2.
Proof.
  intros Hclock Hview date.
  rewrite (fill_days_steady today doses 7 0%nat st Hclock date), (Hview date).
  repeat case_bool_decide; try lia; done.
Qed.

Lemma add_medication_entries med doses st :
  entries_of lower_at med = Ok doses ->
  add_medication lower_at now st med = Ok (fill_days now doses (seq 0 7) st).
Proof.
  unfold entries_of, dict_item. intros H.
  destruct (med_times lower_at med) as [times|] eqn:Htimes; [|done].
  destruct (med !! k_name) as [name|] eqn:Hname; [|done].
  cbn [mbind result_bind] in H. injection H as <-.
  by apply add_medication_ok.
Qed.

Lemma add_medications_steady today :
  forall meds plan st day,
  Forall2 (fun med doses => entries_of lower_at med = Ok doses) meds plan ->
  steady now today st.1 (7 * length meds) ->
  week_view today day st.2 ->
  exists st',
    foldM (add_medication lower_at now) meds st = Ok st' /\
    week_view today
      (match plan with [] => day | _ :: _ => Some (default [] day ++ concat plan) end)
      st'.2.
Proof.
  intros meds plan st day Hplan. revert st day.
  induction Hplan as [|med doses meds plan Hmed _ IH]; intros st day Hclock Hview.
  { exists st. done. }
  cbn [foldM]. rewrite (add_medication_entries med doses st Hmed).
  cbn [mbind result_bind].
  destruct (IH (fill_days now doses (seq 0 7) st) (Some (default [] day ++ doses)))
    as (st' & Hrun & Hview').
  - rewrite fill_days_clock. intros j Hj. apply Hclock. simpl length in *. lia.
  - apply fill_week_view; [|done]. intros j Hj. apply Hclock. simpl length. lia.
  - exists st'. split; [done|].
    destruct plan as [|doses' plan]; simpl in *.
    + by rewrite app_nil_r.
    + by rewrite <- app_assoc in Hview'.
Qed.

(** The builder on a steady clock: every one of the seven days holds the
    entries of all medications, in the order of the list, and there is no
    other day. *)
Lemma generate_schedule_steady today meds plan :
  meds <> [] ->
  Forall2 (fun med doses => entries_of lower_at med = Ok doses) meds plan ->
  steady now today 0 (7 * length meds) ->
  exists sched,
    generate_schedule lower_at now meds = Ok sched /\
    week_view today (Some (concat plan)) sched.
Proof.
  intros Hne Hplan Hclock.
  destruct (add_medications_steady today meds plan (0%nat, ∅) None Hplan Hclock)
    as (st' & Hrun & Hview).
  { intros date. cbn [snd]. rewrite lookup_empty. by case_bool_decide. }
  exists st'.2. unfold generate_schedule. rewrite Hrun. split; [done|].
  destruct Hplan; [done|]. exact Hview.
Qed.
End Builder.

Section BuilderClaims.

Variable lower_at : pystr -> Z -> pystr -> pystr.
Variable now : nat -> Z.

Lemma time_slots_strings_total (timing frequency : pystr) :
  exists t ts, time_slots lower_at (PStr timing) (PStr frequency) = Ok (t :: ts).
Proof.
  unfold time_slots, py_lower. cbn [mbind result_bind].
  destruct (timing_slots (str_lower lower_at timing)) as [|t ts]; [|by eauto].
  unfold frequency_slots. simpl.
  destruct (contains kw_3_times frequency); simpl; [by eauto|].
  destruct (contains kw_2_times frequency); by eauto.
Qed.

Lemma med_times_total (med : medication) :
  text_fields med = true ->
  exists t ts, med_times lower_at med = Ok (t :: ts).
Proof.
  unfold text_fields, med_times, dict_get. intros H.
  apply andb_true_iff in H as [Ht Hf].
  destruct (med !! k_timing) as [[]|]; try discriminate Ht;
    destruct (med !! k_frequency) as [[]|]; try discriminate Hf;
    apply time_slots_strings_total.
Qed.

(** C2, as the code has it: with no medication the loop body never runs and
    the builder returns the empty mapping; no date is created. *)
Theorem empty_list_empty_schedule :
  generate_schedule lower_at now [] = Ok ∅.
Proof. reflexivity. Qed.

(** C6: one medication (with its name) that resolves to two slots gives 14
    entries in all, whatever the clock does, and none of them is taken. *)
Theorem two_slots_fourteen_entries (med : medication) (a b : pystr) :
  is_Some (med !! k_name) ->
  med_times lower_at med = Ok [a; b] ->
  exists sched,
    generate_schedule lower_at now [med] = Ok sched /\
    total_entries sched = 14%nat /\
    all_untaken sched.
Proof.
  intros [name Hname] Htimes.
  unfold generate_schedule. cbn [foldM].
  rewrite (add_medication_ok lower_at now med name [a; b] _ Hname Htimes).
  cbn [mbind result_bind]. eexists. split; [reflexivity|]. split.
  - rewrite fill_days_total. cbn [snd]. unfold total_entries.
    rewrite map_fold_empty. reflexivity.
  - apply fill_days_untaken; [apply doses_of_untaken|]. apply map_Forall_empty.
Qed.





Lemma add_medications_fail (meds : list medication) :
  Forall (fun med => text_fields med = true) meds ->
  Exists (fun med => med !! k_name = None) meds ->
  forall st, foldM (add_medication lower_at now) meds st = Raise (KeyError (KStr k_name)).
Proof.
  induction 1 as [|med meds Htext _ IH]; intros Hex st.
  { by apply Exists_nil in Hex. }
  destruct (med_times_total med Htext) as (t & ts & Htimes). cbn [foldM].
  destruct (med !! k_name) as [name|] eqn:Hname.
  - rewrite (add_medication_ok lower_at now med name _ _ Hname Htimes).
    cbn [mbind result_bind]. apply IH.
    apply Exists_cons in Hex as [Hhere|Hlater]; [congruence | done].
  - by rewrite (add_medication_no_name lower_at now med t ts st Hname Htimes).
Qed.

Lemma dict_get_with_defaults (med : medication) (k : pystr) (dflt : pyval) :
  field_defaults !! k = Some dflt ->
  dict_get (with_defaults med) k dflt = dict_get med k dflt.
Proof.
  intros Hk. unfold dict_get, with_defaults. rewrite lookup_union, Hk.
  by destruct (med !! k).
Qed.

Lemma name_with_defaults (med : medication) :
  with_defaults med !! k_name = med !! k_name.
Proof.
  unfold with_defaults. rewrite lookup_union.
  replace (field_defaults !! k_name) with (@None pyval) by (vm_compute; reflexivity).
  by destruct (med !! k_name).
Qed.

Lemma add_medication_with_defaults st med :
  add_medication lower_at now st (with_defaults med) = add_medication lower_at now st med.
Proof.
  unfold add_medication, med_times.
  rewrite !dict_get_with_defaults by (vm_compute; reflexivity).
  destruct (time_slots lower_at _ _) as [times|]; [|reflexivity].
  cbn [mbind result_bind]. apply foldM_ext. intros s day. unfold add_day.
  f_equal. apply foldM_ext. intros sched t.
  unfold add_dose, dict_item.
  rewrite name_with_defaults, dict_get_with_defaults by (vm_compute; reflexivity).
  reflexivity.
Qed.

Lemma add_medications_named (meds : list medication) :
  Forall (fun med => text_fields med = true /\ is_Some (med !! k_name)) meds ->
  forall st, exists st' slots,
    foldM (add_medication lower_at now) meds st = Ok st' /\
    Forall2 (fun med ts => med_times lower_at med = Ok ts /\ ts <> []) meds slots /\
    total_entries st'.2 = (total_entries st.2 + 7 * sum_list (length <$> slots))%nat /\
    (all_untaken st.2 -> all_untaken st'.2).
Proof.
  induction 1 as [|med meds [Htext [name Hname]] _ IH]; intros st.
  { exists st, []. split; [done|]. split; [constructor|]. split; [simpl; lia | done]. }
  destruct (med_times_total med Htext) as (t & ts & Htimes).
  cbn [foldM]. rewrite (add_medication_ok lower_at now med name _ _ Hname Htimes).
  cbn [mbind result_bind].
  destruct (IH (fill_days now (doses_of med name (t :: ts)) (seq 0 7) st))
    as (st' & slots & Hrun & Hslots & Htotal & Huntaken).
  exists st', ((t :: ts) :: slots). split; [exact Hrun|]. split.
  - constructor; [by split | exact Hslots].
  - split.
    + rewrite Htotal, fill_days_total. unfold doses_of.
      rewrite length_fmap, fmap_cons.
      change (length (seq 0 7)) with 7%nat.
      change (sum_list (length (t :: ts) :: (length <$> slots)))
        with (length (t :: ts) + sum_list (length <$> slots))%nat.
      lia.
    + intros Hst. apply Huntaken. apply fill_days_untaken; [apply doses_of_untaken | done].
Qed.

(** C10, as the code has it.  A field that is absent is read as its
    default: the schedule of a list is that of the list with every missing
    timing set to the empty text, every missing frequency to once a day and
    every missing dosage to the empty text.  On records whose timing and
    frequency, where present, are strings, the builder returns a schedule
    when every record has a name, whatever else is absent: every record
    resolves to at least one slot and the schedule holds seven untaken
    entries for each; a record with a name alone adds one entry at 08:00 with
    the empty dosage to each of its days.  It raises KeyError 'name' as soon
    as one such record has no name. *)
Theorem name_is_the_required_key :
  (forall meds : list medication,
     generate_schedule lower_at now (with_defaults <$> meds) =
     generate_schedule lower_at now meds) /\
  (forall meds : list medication,
     Forall (fun med => text_fields med = true /\ is_Some (med !! k_name)) meds ->
     exists sched slots,
       generate_schedule lower_at now meds = Ok sched /\
       Forall2 (fun med ts => med_times lower_at med = Ok ts /\ ts <> []) meds slots /\
       total_entries sched = (7 * sum_list (length <$> slots))%nat /\
       all_untaken sched) /\
  (forall name : pyval,
     entries_of lower_at {[ k_name := name ]} = Ok [Entry name t0800 (PStr []) false]) /\
  (forall meds : list medication,
     Forall (fun med => text_fields med = true) meds ->
     Exists (fun med => med !! k_name = None) meds ->
     generate_schedule lower_at now meds = Raise (KeyError (KStr k_name))).
Proof.
  split; [|split; [|split]].
  - intros meds. unfold generate_schedule. f_equal.
    generalize (0%nat, ∅ : schedule). induction meds as [|med meds IH]; intros st; [done|].
    rewrite fmap_cons. cbn [foldM]. rewrite add_medication_with_defaults.
    destruct (add_medication lower_at now st med); [apply IH | done].
  - intros meds Hmeds. unfold generate_schedule.
    destruct (add_medications_named meds Hmeds (0%nat, ∅))
      as (st' & slots & -> & Hslots & Htotal & Huntaken).
    exists st'.2, slots. split; [done|]. split; [exact Hslots|]. split.
    + rewrite Htotal. cbn [snd]. unfold total_entries. by rewrite map_fold_empty.
    + apply Huntaken. apply map_Forall_empty.
  - intros name. unfold entries_of, med_times, dict_item, dict_get.
    rewrite lookup_singleton_eq.
    replace (({[k_name := name]} : medication) !! k_timing) with (@None pyval)
      by (symmetry; apply lookup_singleton_ne; discriminate).
    replace (({[k_name := name]} : medication) !! k_frequency) with (@None pyval)
      by (symmetry; apply lookup_singleton_ne; discriminate).
    reflexivity.
  - intros meds Htext Hex. unfold generate_schedule.
    by rewrite add_medications_fail.
Qed.

End BuilderClaims.

(** ** Splitting and stripping *)

Lemma startswith_app_self (k rest : pystr) : startswith k (k ++ rest) = true.
Proof. induction k as [|a k IH]; [apply startswith_nil|]. simpl. by rewrite Z.eqb_refl. Qed.

(** An occurrence that starts in [s] and is followed by a character foreign
    to [k] ends in [s]. *)
Lemma startswith_before_foreign (k s : pystr) (h : Z) (t : pystr) :
  h ∉ k ->
  startswith k (s ++ h :: t) = true -> startswith k s = true.
Proof.
  revert s. induction k as [|a k IH]; intros s Hh H; [apply startswith_nil|].
  apply not_elem_of_cons in Hh as [Hha Hhk].
  destruct s as [|b s]; simpl in *.
  - destruct (Z.eqb_spec a h); [congruence | done].
  - apply andb_true_iff in H as [-> H]. simpl. by apply IH.
Qed.

Lemma startswith_longer (k x s : pystr) :
  startswith (k ++ x) s = true -> startswith k s = true.
Proof.
  revert s. induction k as [|a k IH]; intros s H; [apply startswith_nil|].
  destruct s as [|b s]; simpl in *; [done|].
  apply andb_true_iff in H as [-> H]. simpl. by apply IH.
Qed.

Lemma contains_longer (k x s : pystr) :
  contains k s = false -> contains (k ++ x) s = false.
Proof.
  induction s as [|c s IH]; simpl.
  - rewrite !orb_false_r. intros H. apply not_true_iff_false. intros H'.
    apply startswith_longer in H'. congruence.
  - intros H. apply orb_false_iff in H as [H1 H2].
    rewrite (IH H2), orb_false_r. apply not_true_iff_false. intros H'.
    apply startswith_longer in H'. congruence.
Qed.

Lemma contains_false_cons (k : pystr) (c : Z) (s : pystr) :
  contains k (c :: s) = false ->
  startswith k (c :: s) = false /\ contains k s = false.
Proof. rewrite contains_cons. apply orb_false_iff. Qed.

Lemma no_start_app (k a b rest : pystr) :
  no_start k a (b ++ rest) -> no_start k b rest -> no_start k (a ++ b) rest.
Proof.
  induction a as [|c a IH]; simpl; [done|].
  intros [H1 H2] Hb. rewrite <- app_assoc. split; [done|]. by apply IH.
Qed.

(** Characters that differ from the first of [k] start no occurrence. *)
Lemma no_start_foreign (c0 : Z) (k a rest : pystr) :
  Forall (fun c => c <> c0) a -> no_start (c0 :: k) a rest.
Proof.
  induction 1 as [|c a Hc _ IH]; simpl; [done|]. split; [|done].
  destruct (Z.eqb_spec c0 c); [congruence | done].
Qed.

(** A text without [k], followed by a character foreign to [k]. *)
Lemma no_start_contains (k a : pystr) (h : Z) (t : pystr) :
  h ∉ k -> contains k a = false -> no_start k a (h :: t).
Proof.
  intros Hh. induction a as [|c a IH]; intros Ha; simpl; [done|].
  apply contains_false_cons in Ha as [H1 H2]. split; [|by apply IH].
  apply not_true_iff_false. intros H.
  apply (startswith_before_foreign k (c :: a) h t Hh) in H. congruence.
Qed.

Lemma no_start_contains_end (k a : pystr) :
  contains k a = false -> no_start k a [].
Proof.
  induction a as [|c a IH]; intros Ha; simpl; [done|].
  apply contains_false_cons in Ha as [H1 H2]. rewrite app_nil_r. auto.
Qed.

Lemma contains_app_no_start (k a rest : pystr) :
  no_start k a rest -> contains k rest = false -> contains k (a ++ rest) = false.
Proof.
  induction a as [|c a IH]; simpl; [done|].
  intros [H1 H2] Hrest. rewrite H1. simpl. by apply IH.
Qed.

Lemma split_go_skip (sep : pystr) (x cur rest : pystr) :
  split_go sep (length x) cur (x ++ rest) = split_go sep 0 cur rest.
Proof. induction x as [|c x IH]; [reflexivity | exact IH]. Qed.

(** [split] at the first occurrence of the separator. *)
Lemma split_go_first (c0 : Z) (sep' a rest cur : pystr) :
  no_start (c0 :: sep') a ((c0 :: sep') ++ rest) ->
  split_go (c0 :: sep') 0 cur (a ++ (c0 :: sep') ++ rest) =
  (cur ++ a) :: split_go (c0 :: sep') 0 [] rest.
Proof.
  revert cur. induction a as [|c a IH]; intros cur Ha.
  - pose proof (startswith_app_self (c0 :: sep') rest) as Hs.
    rewrite app_nil_r. cbn [app] in *. cbn [split_go]. rewrite Hs.
    f_equal. cbn [length]. rewrite Nat.sub_1_r. cbn [Nat.pred].
    apply split_go_skip.
  - destruct Ha as [H1 H2]. cbn [app split_go]. cbn [app] in H1. rewrite H1.
    rewrite IH by done. by rewrite <- app_assoc.
Qed.

(** [split] without any occurrence of the separator. *)
Lemma split_go_none (sep s cur : pystr) :
  contains sep s = false -> split_go sep 0 cur s = [cur ++ s].
Proof.
  revert cur. induction s as [|c s IH]; intros cur H.
  - by rewrite app_nil_r.
  - apply contains_false_cons in H as [H1 H2]. cbn [split_go]. rewrite H1.
    rewrite IH by done. by rewrite <- app_assoc.
Qed.

Lemma lstrip_blanks (ws s : pystr) :
  forallb is_space ws = true -> lstrip (ws ++ s) = lstrip s.
Proof.
  induction ws as [|c ws IH]; simpl; [done|].
  intros H. apply andb_true_iff in H as [-> H]. by apply IH.
Qed.

Lemma rstrip_blanks (s ws : pystr) :
  forallb is_space ws = true -> rstrip (s ++ ws) = rstrip s.
Proof.
  intros H. unfold rstrip. rewrite rev_app_distr, lstrip_blanks; [done|].
  rewrite forallb_forall in *. intros c Hc. apply H. by apply in_rev.
Qed.

Lemma strip_blanks (ws1 s ws2 : pystr) :
  forallb is_space ws1 = true -> forallb is_space ws2 = true ->
  strip (ws1 ++ s ++ ws2) = strip s.
Proof.
  intros H1 H2. unfold strip. rewrite lstrip_blanks by done.
  induction s as [|c s IH]; simpl.
  - rewrite <- (app_nil_r ws2), lstrip_blanks by done. reflexivity.
  - destruct (is_space c); [exact IH|].
    exact (rstrip_blanks (c :: s) ws2 H2).
Qed.

(** ** The response parser *)

Lemma space_not_backquote (c : Z) : is_space c = true -> c <> 96.
Proof. intros H ->. vm_compute in H. discriminate. Qed.

Lemma space_not_in_fence_json (c : Z) : is_space c = true -> c ∉ fence_json.
Proof.
  intros H Hin. unfold fence_json in Hin.
  repeat (apply elem_of_cons in Hin as [->|Hin]; [vm_compute in H; discriminate|]).
  by apply elem_of_nil in Hin.
Qed.

Lemma space_not_in_fence (c : Z) : is_space c = true -> c ∉ fence.
Proof.
  intros H Hin. unfold fence in Hin.
  repeat (apply elem_of_cons in Hin as [->|Hin]; [vm_compute in H; discriminate|]).
  by apply elem_of_nil in Hin.
Qed.

Lemma blanks_no_backquote (ws : pystr) :
  forallb is_space ws = true -> Forall (fun c => c <> 96) ws.
Proof.
  intros H. apply Forall_forall. intros c Hc. apply space_not_backquote.
  rewrite forallb_forall in H. apply H. by apply list_elem_of_In.
Qed.

Lemma contains_fence_json (s : pystr) :
  contains fence s = false -> contains fence_json s = false.
Proof. apply (contains_longer fence [106; 115; 111; 110] s). Qed.

(** Inside a fenced block whose payload has no fence, no fence starts before
    the closing one. *)
Lemma no_start_in_block (k' ws1 payload ws2 rest : pystr) :
  (forall c, is_space c = true -> c ∉ 96 :: k') ->
  contains (96 :: k') payload = false ->
  forallb is_space ws1 = true -> blanks ws2 ->
  no_start (96 :: k') (ws1 ++ payload ++ ws2) rest.
Proof.
  intros Hk Hp H1 [Hne H2].
  apply no_start_app; [by apply no_start_foreign, blanks_no_backquote|].
  apply no_start_app; [|by apply no_start_foreign, blanks_no_backquote].
  destruct ws2 as [|h t]; [done|]. simpl in H2. apply andb_true_iff in H2 as [Hh _].
  apply no_start_contains; [by apply Hk | done].
Qed.

Lemma payload_text_plain (text : pystr) :
  contains fence text = false -> payload_text text = Ok text.
Proof.
  intros H. unfold payload_text. by rewrite (contains_fence_json text H), H.
Qed.

Lemma str_split_at_head (c0 : Z) (sep' rest : pystr) :
  str_split (c0 :: sep') ((c0 :: sep') ++ rest) = [] :: str_split (c0 :: sep') rest.
Proof. exact (split_go_first c0 sep' [] rest [] I). Qed.

Lemma str_split_first (c0 : Z) (sep' a rest : pystr) :
  no_start (c0 :: sep') a ((c0 :: sep') ++ rest) ->
  str_split (c0 :: sep') (a ++ (c0 :: sep') ++ rest) = a :: str_split (c0 :: sep') rest.
Proof. apply (split_go_first c0 sep' a rest []). Qed.

Lemma str_split_none (sep s : pystr) :
  contains sep s = false -> str_split sep s = [s].
Proof. apply (split_go_none sep s []). Qed.

Lemma payload_text_between_json (a : pystr) :
  no_start fence_json a fence ->
  no_start fence a (fence ++ []) ->
  payload_text (fence_json ++ a ++ fence) = Ok a.
Proof.
  intros Hj Hf. unfold payload_text.
  rewrite (startswith_contains _ _ (startswith_app_self fence_json (a ++ fence))).
  rewrite (str_split_at_head 96 [96; 96; 106; 115; 111; 110] (a ++ fence)
           : str_split fence_json (fence_json ++ a ++ fence) =
             [] :: str_split fence_json (a ++ fence)).
  rewrite (str_split_none fence_json (a ++ fence))
    by (by apply contains_app_no_start).
  unfold list_item. cbn [lookup list_lookup mbind result_bind].
  replace (a ++ fence) with (a ++ fence ++ []) by (by rewrite app_nil_r).
  rewrite (str_split_first 96 [96; 96] a [] Hf
           : str_split fence (a ++ fence ++ []) = a :: str_split fence []).
  reflexivity.
Qed.

Lemma payload_text_between_bare (a : pystr) :
  contains fence_json (fence ++ a ++ fence) = false ->
  no_start fence a (fence ++ []) ->
  contains fence a = false ->
  payload_text (fence ++ a ++ fence) = Ok a.
Proof.
  intros Hj Hf Ha. unfold payload_text. rewrite Hj.
  rewrite (startswith_contains _ _ (startswith_app_self fence (a ++ fence))).
  rewrite (str_split_at_head 96 [96; 96] (a ++ fence)
           : str_split fence (fence ++ a ++ fence) = [] :: str_split fence (a ++ fence)).
  replace (a ++ fence) with (a ++ fence ++ []) by (by rewrite app_nil_r).
  rewrite (str_split_first 96 [96; 96] a [] Hf
           : str_split fence (a ++ fence ++ []) = a :: str_split fence []).
  unfold list_item. cbn [lookup list_lookup mbind result_bind].
  by rewrite str_split_none.
Qed.

Lemma payload_text_fenced_json (ws1 payload ws2 : pystr) :
  contains fence payload = false ->
  forallb is_space ws1 = true -> blanks ws2 ->
  payload_text (fenced_json ws1 payload ws2) = Ok (ws1 ++ payload ++ ws2).
Proof.
  intros Hp H1 H2. unfold fenced_json.
  replace (ws1 ++ payload ++ ws2 ++ fence) with ((ws1 ++ payload ++ ws2) ++ fence)
    by (by rewrite <- !app_assoc).
  apply payload_text_between_json.
  - apply no_start_in_block; try done.
    + apply space_not_in_fence_json.
    + by apply contains_fence_json.
  - apply no_start_in_block; try done. apply space_not_in_fence.
Qed.

Lemma payload_text_fenced_bare (ws1 payload ws2 : pystr) :
  contains fence payload = false ->
  blanks ws1 -> blanks ws2 ->
  payload_text (fenced_bare ws1 payload ws2) = Ok (ws1 ++ payload ++ ws2).
Proof.
  intros Hp [Hne1 H1] H2. unfold fenced_bare.
  replace (ws1 ++ payload ++ ws2 ++ fence) with ((ws1 ++ payload ++ ws2) ++ fence)
    by (by rewrite <- !app_assoc).
  assert (Hin : forall rest, no_start fence (ws1 ++ payload ++ ws2) rest).
  { intros rest. apply no_start_in_block; try done. apply space_not_in_fence. }
  apply payload_text_between_bare; [|apply Hin|].
  - apply contains_app_no_start.
    + destruct ws1 as [|h t]; [done|]. simpl in H1.
      apply andb_true_iff in H1 as [Hh _].
      assert (E1 : (96 =? h) = false).
      { apply Z.eqb_neq. intros <-. vm_compute in Hh. discriminate. }
      assert (E2 : (106 =? h) = false).
      { apply Z.eqb_neq. intros <-. vm_compute in Hh. discriminate. }
      unfold fence, fence_json. cbn [no_start app startswith].
      rewrite E1, E2. repeat split; reflexivity.
    + apply contains_app_no_start; [|reflexivity].
      apply no_start_in_block; try done.
      * apply space_not_in_fence_json.
      * by apply contains_fence_json.
  - apply contains_app_no_start with (rest := []) in Hin; [|reflexivity].
    by rewrite app_nil_r in Hin.
Qed.

Section ParserClaims.

Variable json_loads : pystr -> result pyval.

(** C7, as the code has it: a payload without the fence marker, put in a
    fenced block of either kind (fence, blanks, payload, blanks, fence),
    parses to what the bare payload parses to. *)
Theorem fenced_payload_parses_alike (payload ws1 ws2 : pystr) :
  contains fence payload = false ->
  blanks ws1 -> blanks ws2 ->
  parse_response json_loads (fenced_json ws1 payload ws2) =
    parse_response json_loads payload /\
  parse_response json_loads (fenced_bare ws1 payload ws2) =
    parse_response json_loads payload.
Proof.
  intros Hp H1 H2. unfold parse_response.
  rewrite payload_text_fenced_json, payload_text_fenced_bare,
    payload_text_plain by (done || apply H1).
  cbn [mbind result_bind].
  rewrite strip_blanks by (apply H1 || apply H2). done.
Qed.

(** The stored list changes only when the reply decodes to a dict that has
    the key. *)
Lemma register_keeps_medications (response : result pystr) (st : session) :
  (forall d, response ≫= parse_response json_loads = Ok (PDict d) ->
     d !! k_medications = None) ->
  o_session (register_medications json_loads response st) = st /\
  (CannotAnalyze ∈ o_shown (register_medications json_loads response st) \/
   is_Some (o_uncaught (register_medications json_loads response st))).
Proof.
  intros Hd. unfold register_medications, analyze_prescription.
  destruct (response ≫= parse_response json_loads) as [parsed|e].
  - destruct (truthy parsed); [|split; [done|left; set_solver]].
    destruct parsed as [| | | | |l|d]; simpl; try (split; [done|right; by eexists]).
    + destruct (contains k_medications s); split; try done;
        [right; by eexists | left; set_solver].
    + destruct (existsb (is_str k_medications) l); split; try done;
        [right; by eexists | left; set_solver].
    + rewrite (Hd d eq_refl). rewrite bool_decide_eq_false_2 by (by intros [? ?]).
      split; [done | left; set_solver].
  - simpl. split; [done | left; set_solver].
Qed.

(** The failures the handler reports: a reply that is not JSON (or a call
    that raised), and a reply that decodes to an object without the
    medications field, end in the could-not-analyze message, with no
    uncaught exception and the session, so the stored list, as it was.
    More generally, whenever the reply does not decode to an object with the
    field, the stored list stays as it was and the run ends in that message
    or in an exception. *)
Theorem failed_analysis_keeps_medications (response : result pystr) (st : session) :
  (((exists e, response ≫= parse_response json_loads = Raise e) \/
    (exists d, response ≫= parse_response json_loads = Ok (PDict d) /\
       d !! k_medications = None)) ->
   o_session (register_medications json_loads response st) = st /\
   medications (o_session (register_medications json_loads response st)) = medications st /\
   CannotAnalyze ∈ o_shown (register_medications json_loads response st) /\
   o_uncaught (register_medications json_loads response st) = None) /\
  ((forall d, response ≫= parse_response json_loads = Ok (PDict d) ->
      d !! k_medications = None) ->
   medications (o_session (register_medications json_loads response st)) = medications st /\
   (CannotAnalyze ∈ o_shown (register_medications json_loads response st) \/
    is_Some (o_uncaught (register_medications json_loads response st)))).
Proof.
  split.
  - intros H. unfold register_medications, analyze_prescription.
    destruct H as [[e ->]|(d & -> & Hd)].
    + simpl. repeat split; set_solver.
    + destruct (truthy (PDict d)); simpl; [|repeat split; set_solver].
      rewrite Hd. rewrite bool_decide_eq_false_2 by (by intros [? ?]).
      repeat split; set_solver.
  - intros H. destruct (register_keeps_medications response st H) as [-> Hshown].
    by split.
Qed.

(** C8, where the code departs from it: the handler ends without any
    message of its own, by an uncaught TypeError, exactly on the replies
    that decode to a truthy value that is no object and either cannot be
    searched (a number, [True]) or holds the word medications (a string, a
    list).  The session, so the stored list, is as it was. *)
Theorem failed_analysis_unreported (response : result pystr) (st : session) :
  register_medications json_loads response st = Outcome st [] (Some TypeError) <->
  exists parsed,
    response ≫= parse_response json_loads = Ok parsed /\ unreported parsed = true.
Proof.
  unfold register_medications, analyze_prescription, unreported.
  destruct (response ≫= parse_response json_loads) as [parsed|e]; split.
  - intros H. exists parsed. split; [done|].
    destruct parsed as [|b|n|lit|s|l|d]; cbn [truthy py_in py_getitem] in H |- *.
    + discriminate H.
    + by destruct b.
    + by destruct (negb (n =? 0)).
    + by destruct (float_nonzero lit).
    + destruct (negb (bool_decide (s = []))); [|discriminate H].
      by destruct (contains k_medications s).
    + destruct (negb (bool_decide (l = []))); [|discriminate H].
      by destruct (existsb (is_str k_medications) l).
    + destruct (negb (bool_decide (d = ∅))); [|discriminate H].
      destruct (bool_decide (is_Some (d !! k_medications))); [|discriminate H].
      by destruct (d !! k_medications).
  - intros (p & Hp & Hun). injection Hp as <-.
    apply andb_true_iff in Hun as [-> Hshape].
    destruct parsed as [|b|n|lit|s|l|d]; cbn [py_in py_getitem] in Hshape |- *; try done.
    + by rewrite Hshape.
    + by rewrite Hshape.
  - simpl. discriminate.
  - by intros (p & Hp & _).
Qed.

End ParserClaims.

(** ** The end-to-end scenario *)

Section Scenario.

Variable lower_at : pystr -> Z -> pystr -> pystr.
Hypothesis lower_ok : lower_spec lower_at.
Variable now : nat -> Z.

Lemma amoxicillin_ko_times :
  med_times lower_at amoxicillin_ko = Ok [t0800; t1800].
Proof.
  unfold med_times.
  replace (dict_get amoxicillin_ko k_timing (PStr []))
    with (PStr (utf8 "아침, 저녁 식후")) by (vm_compute; reflexivity).
  rewrite (time_slots_str lower_at lower_ok). vm_compute. reflexivity.
Qed.

(** C1, as the code has it: the record named Amoxicillin whose timing and
    frequency are written with the keywords of the table resolves to 08:00
    and 18:00, and on a steady clock each of the seven days of its schedule
    holds exactly two entries, Amoxicillin at 08:00 and at 18:00, not
    taken. *)
Theorem amoxicillin_week (today : Z) :
  steady now today 0 7 ->
  med_times lower_at amoxicillin_ko = Ok [t0800; t1800] /\
  exists sched,
    generate_schedule lower_at now [amoxicillin_ko] = Ok sched /\
    forall day, (day < 7)%nat ->
      sched !! (today + Z.of_nat day) =
      Some [Entry amoxicillin t0800 (PStr []) false;
            Entry amoxicillin t1800 (PStr []) false].
Proof.
  intros Hclock. split; [apply amoxicillin_ko_times|].
  destruct (generate_schedule_steady lower_at now today [amoxicillin_ko]
    [[Entry amoxicillin t0800 (PStr []) false; Entry amoxicillin t1800 (PStr []) false]])
    as (sched & Hrun & Hview); [done| |exact Hclock|].
  - constructor; [|constructor]. unfold entries_of.
    rewrite amoxicillin_ko_times. vm_compute. reflexivity.
  - exists sched. split; [done|]. intros day Hday.
    rewrite (Hview (today + Z.of_nat day)).
    rewrite bool_decide_eq_true_2 by lia. reflexivity.
Qed.

End Scenario.

(** ** The claims on concrete inputs *)

Lemma day_zero_steady (from n : nat) : steady day_zero 0 from n.
Proof. intros j _. reflexivity. Qed.

(** C1 as the specification words it: the English timing and frequency
    hold none of the keywords of the table, so the record resolves to the
    default 08:00 alone and each day has one entry. *)
Lemma amoxicillin_en_one_slot :
  med_times ascii_lower_at amoxicillin_en = Ok [t0800] /\
  (sched ← generate_schedule ascii_lower_at day_zero [amoxicillin_en]; Ok (sched !! 0)) =
    Ok (Some [Entry amoxicillin t0800 (PStr []) false]).
Proof. split; vm_compute; reflexivity. Qed.

Lemma amoxicillin_week_witness :
  steady day_zero 0 0 7 /\
  med_times ascii_lower_at amoxicillin_ko = Ok [t0800; t1800] /\
  exists sched,
    generate_schedule ascii_lower_at day_zero [amoxicillin_ko] = Ok sched /\
    forall day, (day < 7)%nat ->
      sched !! (0 + Z.of_nat day) =
      Some [Entry amoxicillin t0800 (PStr []) false;
            Entry amoxicillin t1800 (PStr []) false].
Proof.
  split; [apply day_zero_steady|].
  apply (amoxicillin_week ascii_lower_at ascii_lower_spec day_zero 0).
  apply day_zero_steady.
Defined.

(** C2 as the specification words it: the schedule of the empty list is not
    a mapping of seven dates to empty lists; today is not among its keys. *)
Lemma empty_list_no_dates :
  (sched ← generate_schedule ascii_lower_at day_zero []; Ok (sched !! 0)) = Ok None /\
  (sched ← generate_schedule ascii_lower_at day_zero []; Ok (size sched)) = Ok 0%nat.
Proof. split; reflexivity. Qed.

(** C3 as the specification words it: a timing with the three meal keywords
    and a bedtime keyword resolves to four slots, not three. *)
Lemma three_meals_and_bedtime :
  contains kw_morning (utf8 "저녁, 점심, 아침, 취침 전") = true /\
  contains kw_lunch (utf8 "저녁, 점심, 아침, 취침 전") = true /\
  contains kw_evening (utf8 "저녁, 점심, 아침, 취침 전") = true /\
  time_slots ascii_lower_at (PStr (utf8 "저녁, 점심, 아침, 취침 전")) (PStr []) =
    Ok [t0800; t1200; t1800; t2200].
Proof. repeat split; vm_compute; reflexivity. Qed.

Lemma resolver_three_meals_witness :
  contains kw_morning (utf8 "저녁, 점심, 아침 식후 30분") = true /\
  contains kw_lunch (utf8 "저녁, 점심, 아침 식후 30분") = true /\
  contains kw_evening (utf8 "저녁, 점심, 아침 식후 30분") = true /\
  time_slots ascii_lower_at (PStr (utf8 "저녁, 점심, 아침 식후 30분")) (PStr []) =
    Ok [t0800; t1200; t1800].
Proof.
  split; [reflexivity|]. split; [reflexivity|]. split; [reflexivity|].
  exact (resolver_three_meals ascii_lower_at ascii_lower_spec
           (utf8 "저녁, 점심, 아침 식후 30분") (PStr []) eq_refl eq_refl eq_refl).
Defined.


Lemma resolver_total_timing_wins_witness :
  names_a_slot (utf8 "아침") = true /\
  time_slots ascii_lower_at (PStr (utf8 "아침")) (PStr (utf8 "1일 3회")) = Ok [t0800] /\
  time_slots ascii_lower_at (PStr (utf8 "아침")) (PStr (utf8 "1일 3회")) =
    time_slots ascii_lower_at (PStr (utf8 "아침")) (PInt 3).
Proof.
  destruct (resolver_total_timing_wins ascii_lower_at ascii_lower_spec) as [_ H].
  split; [reflexivity|].
  exact (H (utf8 "아침") (PStr (utf8 "1일 3회")) (PInt 3) eq_refl).
Defined.

Lemma two_slots_fourteen_entries_witness :
  is_Some (amoxicillin_ko !! k_name) /\
  med_times ascii_lower_at amoxicillin_ko = Ok [t0800; t1800] /\
  exists sched,
    generate_schedule ascii_lower_at day_zero [amoxicillin_ko] = Ok sched /\
    total_entries sched = 14%nat /\
    all_untaken sched.
Proof.
  assert (Hname : is_Some (amoxicillin_ko !! k_name)) by (exists amoxicillin; reflexivity).
  assert (Htimes : med_times ascii_lower_at amoxicillin_ko = Ok [t0800; t1800])
    by reflexivity.
  split; [exact Hname|]. split; [exact Htimes|].
  exact (two_slots_fourteen_entries ascii_lower_at day_zero amoxicillin_ko
           t0800 t1800 Hname Htimes).
Defined.


Lemma name_is_the_required_key_witness :
  Forall (fun med => text_fields med = true /\ is_Some (med !! k_name))
    [name_only; morning_b] /\
  (exists sched slots,
     generate_schedule ascii_lower_at day_zero [name_only; morning_b] = Ok sched /\
     Forall2 (fun med ts => med_times ascii_lower_at med = Ok ts /\ ts <> [])
       [name_only; morning_b] slots /\
     total_entries sched = (7 * sum_list (length <$> slots))%nat /\
     all_untaken sched) /\
  generate_schedule ascii_lower_at day_zero (with_defaults <$> [name_only; ∅]) =
    generate_schedule ascii_lower_at day_zero [name_only; ∅] /\
  Forall (fun med : medication => text_fields med = true) [name_only; ∅] /\
  Exists (fun med : medication => med !! k_name = None) [name_only; ∅] /\
  generate_schedule ascii_lower_at day_zero [name_only; ∅] = Raise (KeyError (KStr k_name)).
Proof.
  destruct (name_is_the_required_key ascii_lower_at day_zero)
    as (Hdefaults & Hok & _ & Hfail).
  assert (H1 : Forall (fun med => text_fields med = true /\ is_Some (med !! k_name))
            [name_only; morning_b]).
  { repeat constructor; eexists; reflexivity. }
  assert (H2 : Forall (fun med : medication => text_fields med = true) [name_only; ∅]).
  { repeat constructor. }
  assert (H3 : Exists (fun med : medication => med !! k_name = None) [name_only; ∅]).
  { apply Exists_cons_tl, Exists_cons_hd. reflexivity. }
  split; [exact H1|]. split; [exact (Hok _ H1)|]. split; [exact (Hdefaults _)|].
  split; [exact H2|]. split; [exact H3|]. exact (Hfail _ H2 H3).
Defined.

(** C10 as the specification words it: a name is not enough.  A named
    record whose timing is null raises AttributeError at line 78, and one
    whose frequency is a number raises TypeError at line 94. *)
Lemma named_records_that_raise :
  is_Some (null_timing !! k_name) /\
  generate_schedule ascii_lower_at day_zero [null_timing] = Raise AttributeError /\
  is_Some (numeric_frequency !! k_name) /\
  generate_schedule ascii_lower_at day_zero [numeric_frequency] = Raise TypeError.
Proof.
  split; [eexists; reflexivity|]. split; [reflexivity|].
  split; [eexists; reflexivity|]. reflexivity.
Qed.



(** C7 as the specification words it: a payload that is a JSON object with
    the medications field, one of whose strings holds a fenced snippet.
    Bare, the parser cuts the snippet out and decodes it; inside a fenced
    block of either kind it cuts at the inner fence and the decoder fails. *)
Lemma fenced_payload_differs :
  (v ← Json.loads payload_with_fence; py_getitem v k_medications) = Ok (PList []) /\
  parse_response Json.loads payload_with_fence = Ok (PList [PInt 1]) /\
  parse_response Json.loads (fenced_json [10] payload_with_fence [10]) =
    Raise JSONDecodeError /\
  parse_response Json.loads (fenced_bare [10] payload_with_fence [10]) =
    Raise JSONDecodeError.
Proof. repeat split; vm_compute; reflexivity. Qed.

Lemma fenced_payload_parses_alike_witness :
  contains fence payload_plain = false /\
  blanks [10] /\
  parse_response Json.loads (fenced_json [10] payload_plain [10]) =
    parse_response Json.loads payload_plain /\
  parse_response Json.loads (fenced_bare [10] payload_plain [10]) =
    parse_response Json.loads payload_plain.
Proof.
  assert (Hp : contains fence payload_plain = false) by reflexivity.
  assert (Hb : blanks [10]) by (split; [discriminate | reflexivity]).
  split; [exact Hp|]. split; [exact Hb|].
  exact (fenced_payload_parses_alike Json.loads payload_plain [10] [10] Hp Hb Hb).
Defined.

Lemma failed_analysis_witness :
  Ok (utf8 "분석 불가") ≫= parse_response Json.loads = Raise JSONDecodeError /\
  (o_session (register_medications Json.loads (Ok (utf8 "분석 불가")) session_with_amoxicillin) =
     session_with_amoxicillin /\
   medications
     (o_session (register_medications Json.loads (Ok (utf8 "분석 불가")) session_with_amoxicillin)) =
     medications session_with_amoxicillin /\
   CannotAnalyze ∈
     o_shown (register_medications Json.loads (Ok (utf8 "분석 불가")) session_with_amoxicillin) /\
   o_uncaught (register_medications Json.loads (Ok (utf8 "분석 불가")) session_with_amoxicillin) =
     None) /\
  Ok (utf8 "42") ≫= parse_response Json.loads = Ok (PInt 42) /\
  medications
    (o_session (register_medications Json.loads (Ok (utf8 "42")) session_with_amoxicillin)) =
    medications session_with_amoxicillin /\
  (CannotAnalyze ∈
     o_shown (register_medications Json.loads (Ok (utf8 "42")) session_with_amoxicillin) \/
   is_Some (o_uncaught
     (register_medications Json.loads (Ok (utf8 "42")) session_with_amoxicillin))).
Proof.
  assert (H : Ok (utf8 "분석 불가") ≫= parse_response Json.loads = Raise JSONDecodeError)
    by reflexivity.
  assert (H42 : Ok (utf8 "42") ≫= parse_response Json.loads = Ok (PInt 42))
    by reflexivity.
  split; [exact H|]. split.
  - exact (proj1 (failed_analysis_keeps_medications Json.loads (Ok (utf8 "분석 불가"))
                    session_with_amoxicillin) (or_introl (ex_intro _ JSONDecodeError H))).
  - split; [exact H42|].
    apply (proj2 (failed_analysis_keeps_medications Json.loads (Ok (utf8 "42"))
                    session_with_amoxicillin)).
    intros d Hd. rewrite H42 in Hd. discriminate Hd.
Defined.

Lemma failed_analysis_unreported_witness :
  (Ok (utf8 "42") ≫= parse_response Json.loads) = Ok (PInt 42) /\
  unreported (PInt 42) = true /\
  register_medications Json.loads (Ok (utf8 "42")) session_with_amoxicillin =
    Outcome session_with_amoxicillin [] (Some TypeError).
Proof.
  assert (H : (Ok (utf8 "42") ≫= parse_response Json.loads) = Ok (PInt 42))
    by reflexivity.
  split; [exact H|]. split; [reflexivity|].
  apply (proj2 (failed_analysis_unreported Json.loads (Ok (utf8 "42"))
                  session_with_amoxicillin)).
  exists (PInt 42). split; [exact H | reflexivity].
Defined.

(** The handler on the three kinds of reply: the expected object replaces
    the stored list; an object without the field and a bare number leave it,
    the number by way of an uncaught TypeError. *)
Example register_on_samples :
  medications (o_session
    (register_medications Json.loads (Ok (fenced_json [10] payload_plain [10]))
       initial_session)) =
    PList [PDict {[ k_name := amoxicillin ]}] /\
  register_medications Json.loads (Ok payload_no_field) session_with_amoxicillin =
    Outcome session_with_amoxicillin [CannotAnalyze] None /\
  register_medications Json.loads (Ok (utf8 "42")) session_with_amoxicillin =
    Outcome session_with_amoxicillin [] (Some TypeError).
Proof. repeat split; vm_compute; reflexivity. Qed.

(** * Further properties *)

(** ** The resolver on arbitrary values *)

Lemma timing_slots_sublist (timing : pystr) :
  sublist (timing_slots timing) canonical_slots.
Proof.
  unfold timing_slots, canonical_slots.
  destruct (contains kw_morning timing), (contains kw_lunch timing),
    (contains kw_evening timing),
    (contains kw_bedtime timing || contains kw_before_sleep timing);
    simpl; repeat (first [apply sublist_nil | apply sublist_skip | apply sublist_cons]).
Qed.

Lemma frequency_slots_sound (frequency : pyval) (ts : list pystr) :
  frequency_slots frequency = Ok ts ->
  ts <> [] /\ sublist ts canonical_slots.
Proof.
  unfold frequency_slots, canonical_slots.
  destruct (py_in kw_3_times frequency) as [[|]|]; cbn [mbind result_bind];
    [intros [= <-]| |done].
  { split; [done|]. repeat (first [apply sublist_nil | apply sublist_skip | apply sublist_cons]). }
  destruct (py_in kw_2_times frequency) as [[|]|]; cbn [mbind result_bind];
    [intros [= <-]|intros [= <-]|done];
    (split; [done|]);
    repeat (first [apply sublist_nil | apply sublist_skip | apply sublist_cons]).
Qed.

Lemma time_slots_sound lower_at (timing frequency : pyval) (ts : list pystr) :
  time_slots lower_at timing frequency = Ok ts ->
  ts <> [] /\ sublist ts canonical_slots.
Proof.
  unfold time_slots.
  destruct (py_lower lower_at timing) as [t|]; cbn [mbind result_bind]; [|done].
  destruct (timing_slots t) as [|x xs] eqn:Hts.
  - apply frequency_slots_sound.
  - intros [= <-]. split; [done|]. rewrite <- Hts. apply timing_slots_sublist.
Qed.

(** X1: whatever the two values are, when the resolver returns it returns a
    non-empty selection of 08:00, 12:00, 18:00, 22:00, in this order and
    without repetition. *)
Theorem resolved_slots_are_canonical lower_at (timing frequency : pyval) (ts : list pystr) :
  time_slots lower_at timing frequency = Ok ts ->
  ts <> [] /\ sublist ts canonical_slots.
Proof. apply time_slots_sound. Qed.

Section ResolverErrors.

Variable lower_at : pystr -> Z -> pystr -> pystr.
Hypothesis lower_ok : lower_spec lower_at.

(** X2: the two ways the resolver raises.  A timing that is not a string
    raises AttributeError, whatever the frequency.  A timing text that names
    no slot hands the decision to the frequency, and a frequency that is
    [None], a bool or a number raises TypeError, while a string, list or
    dict never does.  A timing text that names a slot never raises. *)
Theorem resolver_errors :
  (forall timing frequency : pyval,
     (forall s, timing <> PStr s) ->
     time_slots lower_at timing frequency = Raise AttributeError) /\
  (forall (timing : pystr) (frequency : pyval),
     names_a_slot timing = false ->
     if iterable frequency
     then exists ts, time_slots lower_at (PStr timing) frequency = Ok ts
     else time_slots lower_at (PStr timing) frequency = Raise TypeError) /\
  (forall (timing : pystr) (frequency : pyval),
     names_a_slot timing = true ->
     exists ts, time_slots lower_at (PStr timing) frequency = Ok ts).
Proof.
  split; [|split].
  - intros timing frequency Hns. unfold time_slots.
    destruct timing; try reflexivity. by destruct (Hns s).
  - intros timing frequency Hno. rewrite (time_slots_str lower_at lower_ok).
    apply timing_slots_nil in Hno as ->. unfold frequency_slots.
    destruct frequency; simpl; try reflexivity.
    + destruct (contains kw_3_times s); simpl; [by eexists|].
      destruct (contains kw_2_times s); by eexists.
    + destruct (existsb (is_str kw_3_times) l); simpl; [by eexists|].
      destruct (existsb (is_str kw_2_times) l); by eexists.
    + destruct (bool_decide (is_Some (d !! kw_3_times))); simpl; [by eexists|].
      destruct (bool_decide (is_Some (d !! kw_2_times))); by eexists.
  - intros timing frequency Hyes. rewrite (time_slots_str lower_at lower_ok).
    destruct (timing_slots timing) as [|t ts] eqn:Hts; [|by eexists].
    apply timing_slots_nil in Hts. congruence.
Qed.

End ResolverErrors.

(** ** The builder on arbitrary lists and clocks *)

Lemma foldM_invariant {A S : Type} (f : S -> A -> result S) (P : S -> Prop) :
  (forall s x s', f s x = Ok s' -> P s -> P s') ->
  forall l s s', foldM f l s = Ok s' -> P s -> P s'.
Proof.
  intros Hstep. induction l as [|x l IH]; intros s s' Hrun Hs.
  - injection Hrun as <-. exact Hs.
  - cbn [foldM] in Hrun. destruct (f s x) as [s1|] eqn:Hx; [|done].
    cbn [mbind result_bind] in Hrun. eapply IH; [exact Hrun|]. by eapply Hstep.
Qed.

Section BuilderFacts.

Variable lower_at : pystr -> Z -> pystr -> pystr.
Variable now : nat -> Z.

(** A round that returns had a name and slots, and was seven pure steps. *)
Lemma add_medication_inv st med st' :
  add_medication lower_at now st med = Ok st' ->
  exists name times,
    med !! k_name = Some name /\
    med_times lower_at med = Ok times /\
    times <> [] /\ sublist times canonical_slots /\
    st' = fill_days now (doses_of med name times) (seq 0 7) st.
Proof.
  intros Hrun.
  destruct (med_times lower_at med) as [times|e] eqn:Htimes.
  - destruct (time_slots_sound lower_at _ _ _ Htimes) as [Hne Hsub].
    destruct (med !! k_name) as [name|] eqn:Hname.
    + rewrite (add_medication_ok lower_at now med name times st Hname Htimes) in Hrun.
      injection Hrun as <-. by exists name, times.
    + destruct times as [|t ts]; [done|].
      by rewrite (add_medication_no_name lower_at now med t ts st Hname Htimes) in Hrun.
  - unfold add_medication in Hrun. by rewrite Htimes in Hrun.
Qed.

Lemma add_medication_error st med e :
  record_error lower_at med = Some e ->
  add_medication lower_at now st med = Raise e.
Proof.
  unfold record_error. intros H.
  destruct (med_times lower_at med) as [times|e'] eqn:Htimes.
  - destruct (time_slots_sound lower_at _ _ _ Htimes) as [Hne _].
    destruct (med !! k_name) as [name|] eqn:Hname; [done|]. injection H as <-.
    destruct times as [|t ts]; [done|].
    exact (add_medication_no_name lower_at now med t ts st Hname Htimes).
  - injection H as <-. unfold add_medication. by rewrite Htimes.
Qed.

Lemma add_medications_no_error meds :
  Forall (fun med => record_error lower_at med = None) meds ->
  forall st, exists st', foldM (add_medication lower_at now) meds st = Ok st'.
Proof.
  induction 1 as [|med meds Hmed _ IH]; intros st; [by eexists|].
  unfold record_error in Hmed.
  destruct (med_times lower_at med) as [times|] eqn:Htimes; [|done].
  destruct (med !! k_name) as [name|] eqn:Hname; [|done].
  cbn [foldM]. rewrite (add_medication_ok lower_at now med name times st Hname Htimes).
  apply IH.
Qed.

(** X3: the builder returns exactly when no record is in error (slots that
    resolve, a name), and otherwise raises the exception of the first record
    in error; the records after it are not looked at. *)
Theorem first_bad_record_decides :
  (forall meds : list medication,
     Forall (fun med => record_error lower_at med = None) meds ->
     exists sched, generate_schedule lower_at now meds = Ok sched) /\
  (forall (before : list medication) (med : medication) (after : list medication) (e : exn),
     Forall (fun med => record_error lower_at med = None) before ->
     record_error lower_at med = Some e ->
     generate_schedule lower_at now (before ++ med :: after) = Raise e).
Proof.
  split.
  - intros meds Hmeds. unfold generate_schedule.
    destruct (add_medications_no_error meds Hmeds (0%nat, ∅)) as [st' ->]. by eexists.
  - intros before med after e Hbefore Hmed. unfold generate_schedule.
    rewrite foldM_app.
    destruct (add_medications_no_error before Hbefore (0%nat, ∅)) as [st' ->].
    cbn [mbind result_bind foldM]. by rewrite (add_medication_error st' med e Hmed).
Qed.

Lemma put_good_days (P : entry -> Prop) date doses sched :
  doses <> [] -> Forall P doses ->
  map_Forall (fun _ ds => ds <> [] /\ Forall P ds) sched ->
  map_Forall (fun _ ds => ds <> [] /\ Forall P ds) (put date doses sched).
Proof.
  intros Hne Hdoses Hsched. unfold put. apply map_Forall_insert_2; [|done].
  destruct (sched !! date) as [old|] eqn:Hold; simpl.
  - destruct (Hsched date old Hold) as [_ Hold']. split.
    + intros Happ. apply app_eq_nil in Happ as [_ ?]. done.
    + by apply Forall_app.
  - done.
Qed.

Lemma fill_days_good_days (P : entry -> Prop) doses days st :
  doses <> [] -> Forall P doses ->
  map_Forall (fun _ ds => ds <> [] /\ Forall P ds) st.2 ->
  map_Forall (fun _ ds => ds <> [] /\ Forall P ds) (fill_days now doses days st).2.
Proof.
  intros Hne Hdoses. revert st. induction days as [|d days IH]; intros st Hst; [done|].
  rewrite fill_days_cons. apply IH. cbn [snd]. by apply put_good_days.
Qed.

Lemma returned_days_good (meds : list medication) (sched : schedule) :
  generate_schedule lower_at now meds = Ok sched ->
  map_Forall (fun _ doses =>
    doses <> [] /\
    Forall (fun e => e_taken e = false /\ e_time e ∈ canonical_slots) doses) sched.
Proof.
  unfold generate_schedule. intros Hrun.
  destruct (foldM (add_medication lower_at now) meds (0%nat, ∅)) as [st'|] eqn:Hfold; [|done].
  injection Hrun as <-.
  refine (foldM_invariant (add_medication lower_at now)
    (fun st => map_Forall (fun _ doses => doses <> [] /\
       Forall (fun e => e_taken e = false /\ e_time e ∈ canonical_slots) doses) st.2)
    _ meds _ _ Hfold _); [|apply map_Forall_empty].
  intros st med st1 Hstep Hst.
  destruct (add_medication_inv st med st1 Hstep) as (name & times & _ & _ & Hne & Hsub & ->).
  apply fill_days_good_days; [|apply Forall_fmap, Forall_forall|done].
  - unfold doses_of. by destruct times.
  - intros t Ht. simpl. split; [done|]. by eapply elem_of_sublist.
Qed.

(** X4: in every schedule the builder returns, on any clock, no day is
    empty, no entry is taken, and every entry stands at one of the four
    slots. *)
Theorem returned_days_are_well_formed (meds : list medication) (sched : schedule) :
  generate_schedule lower_at now meds = Ok sched ->
  map_Forall (fun _ doses =>
    doses <> [] /\
    Forall (fun e => e_taken e = false /\ e_time e ∈ canonical_slots) doses) sched.
Proof. apply returned_days_good. Qed.

Lemma add_medications_total meds slots :
  Forall2 (fun med ts => med_times lower_at med = Ok ts) meds slots ->
  forall st st', foldM (add_medication lower_at now) meds st = Ok st' ->
  total_entries st'.2 = (total_entries st.2 + 7 * sum_list (length <$> slots))%nat.
Proof.
  induction 1 as [|med ts meds slots Hts _ IH]; intros st st' Hrun.
  - injection Hrun as <-. simpl. lia.
  - cbn [foldM] in Hrun.
    destruct (add_medication lower_at now st med) as [st1|] eqn:Hstep; [|done].
    cbn [mbind result_bind] in Hrun.
    destruct (add_medication_inv st med st1 Hstep) as (name & times & _ & Htimes & _ & _ & ->).
    rewrite Hts in Htimes. injection Htimes as <-.
    rewrite (IH _ _ Hrun), fill_days_total. unfold doses_of.
    rewrite length_fmap, fmap_cons.
    change (length (seq 0 7)) with 7%nat.
    change (sum_list (length ts :: (length <$> slots)))
      with (length ts + sum_list (length <$> slots))%nat. lia.
Qed.

(** X5: on any clock, a returned schedule holds seven entries for every
    resolved slot of every medication of the list: 7 times the number of
    slots in all. *)
Theorem seven_entries_per_slot (meds : list medication) (slots : list (list pystr))
    (sched : schedule) :
  generate_schedule lower_at now meds = Ok sched ->
  Forall2 (fun med ts => med_times lower_at med = Ok ts) meds slots ->
  total_entries sched = (7 * sum_list (length <$> slots))%nat.
Proof.
  unfold generate_schedule. intros Hrun Hslots.
  destruct (foldM (add_medication lower_at now) meds (0%nat, ∅)) as [st'|] eqn:Hfold; [|done].
  injection Hrun as <-.
  rewrite (add_medications_total meds slots Hslots _ _ Hfold). cbn [snd].
  unfold total_entries at 1. by rewrite map_fold_empty.
Qed.

Lemma add_medication_insert (k : pystr) (v : pyval) st med :
  k ∉ read_keys ->
  add_medication lower_at now st (<[k := v]> med) = add_medication lower_at now st med.
Proof.
  unfold read_keys. intros Hk.
  apply not_elem_of_cons in Hk as [Ht Hk]. apply not_elem_of_cons in Hk as [Hf Hk].
  apply not_elem_of_cons in Hk as [Hn Hk]. apply not_elem_of_cons in Hk as [Hd _].
  unfold add_medication, med_times, dict_get.
  rewrite !lookup_insert_ne by done.
  destruct (time_slots lower_at _ _) as [times|]; [|reflexivity].
  cbn [mbind result_bind]. apply foldM_ext. intros s day. unfold add_day.
  f_equal. apply foldM_ext. intros sched t.
  unfold add_dose, dict_item, dict_get. by rewrite !lookup_insert_ne.
Qed.

(** X6: the builder reads four keys of a record.  Setting any other key
    (duration, warnings, or one the data model does not know) to any value,
    in every record, changes nothing: neither the schedule nor the
    exception. *)
Theorem other_fields_are_ignored (k : pystr) (v : pyval) (meds : list medication) :
  k ∉ read_keys ->
  generate_schedule lower_at now ((fun med => <[k := v]> med) <$> meds) =
  generate_schedule lower_at now meds.
Proof.
  intros Hk. unfold generate_schedule. f_equal.
  generalize (0%nat, ∅ : schedule). induction meds as [|med meds IH]; intros st; [done|].
  rewrite fmap_cons. cbn [foldM]. rewrite add_medication_insert by done.
  destruct (add_medication lower_at now st med); [apply IH | done].
Qed.

Lemma add_medications_plan meds :
  forall st st', foldM (add_medication lower_at now) meds st = Ok st' ->
  exists plan, Forall2 (fun med doses => entries_of lower_at med = Ok doses) meds plan.
Proof.
  induction meds as [|med meds IH]; intros st st' Hrun; [by exists []|].
  cbn [foldM] in Hrun.
  destruct (add_medication lower_at now st med) as [st1|] eqn:Hstep; [|done].
  cbn [mbind result_bind] in Hrun.
  destruct (add_medication_inv st med st1 Hstep) as (name & times & Hname & Htimes & _).
  destruct (IH _ _ Hrun) as [plan Hplan].
  exists (doses_of med name times :: plan). constructor; [|done].
  unfold entries_of, dict_item. by rewrite Htimes, Hname.
Qed.

(** X7: when the clock stays on one day, the schedule returned for a
    non-empty list has exactly the seven dates from that day on. *)
Theorem seven_dates_on_a_steady_clock (today : Z) (meds : list medication)
    (sched : schedule) :
  meds <> [] ->
  steady now today 0 (7 * length meds) ->
  generate_schedule lower_at now meds = Ok sched ->
  forall date, is_Some (sched !! date) <-> today <= date < today + 7.
Proof.
  intros Hne Hclock Hrun. unfold generate_schedule in Hrun.
  destruct (foldM (add_medication lower_at now) meds (0%nat, ∅)) as [st'|] eqn:Hfold; [|done].
  injection Hrun as <-.
  destruct (add_medications_plan meds _ _ Hfold) as [plan Hplan].
  destruct (generate_schedule_steady lower_at now today meds plan Hne Hplan Hclock)
    as (sched & Hrun & Hview).
  unfold generate_schedule in Hrun. rewrite Hfold in Hrun. injection Hrun as <-.
  intros date. rewrite (Hview date). case_bool_decide; split; try done.
Qed.

(** X8: when the clock stays on one day, the schedule of two lists put
    together is the two schedules put together day by day: each day holds
    the entries of the first list followed by those of the second. *)
Theorem schedule_of_appended_lists (today : Z) (meds1 meds2 : list medication)
    (s1 s2 : schedule) :
  steady now today 0 (7 * length (meds1 ++ meds2)) ->
  generate_schedule lower_at now meds1 = Ok s1 ->
  generate_schedule lower_at now meds2 = Ok s2 ->
  generate_schedule lower_at now (meds1 ++ meds2) =
    Ok (union_with (fun l1 l2 => Some (l1 ++ l2)) s1 s2).
Proof.
  intros Hclock Hrun1 Hrun2. unfold generate_schedule in *.
  destruct (foldM (add_medication lower_at now) meds1 (0%nat, ∅)) as [st1|] eqn:Hf1; [|done].
  destruct (foldM (add_medication lower_at now) meds2 (0%nat, ∅)) as [st2|] eqn:Hf2; [|done].
  injection Hrun1 as <-. injection Hrun2 as <-.
  destruct (add_medications_plan meds1 _ _ Hf1) as [plan1 Hplan1].
  destruct (add_medications_plan meds2 _ _ Hf2) as [plan2 Hplan2].
  assert (Hempty : week_view today None (0%nat, ∅ : schedule).2).
  { intros date. cbn [snd]. rewrite lookup_empty. by case_bool_decide. }
  rewrite length_app in Hclock.
  destruct (add_medications_steady lower_at now today meds1 plan1 (0%nat, ∅) None Hplan1)
    as (st1' & Hr1 & Hv1); [intros j Hj; apply Hclock; cbn [fst] in Hj; lia|done|].
  destruct (add_medications_steady lower_at now today meds2 plan2 (0%nat, ∅) None Hplan2)
    as (st2' & Hr2 & Hv2); [intros j Hj; apply Hclock; cbn [fst] in Hj; lia|done|].
  destruct (add_medications_steady lower_at now today (meds1 ++ meds2) (plan1 ++ plan2)
              (0%nat, ∅) None) as (st' & Hr & Hv);
    [by apply Forall2_app
    |intros j Hj; apply Hclock; rewrite length_app in Hj; cbn [fst] in Hj; lia|done|].
  rewrite Hf1 in Hr1. injection Hr1 as <-. rewrite Hf2 in Hr2. injection Hr2 as <-.
  rewrite Hr. cbn [mbind result_bind]. f_equal. apply map_eq. intros date.
  rewrite lookup_union_with, (Hv date), (Hv1 date), (Hv2 date).
  case_bool_decide; [|done].
  destruct plan1 as [|d1 plan1], plan2 as [|d2 plan2]; simpl; try done.
  - by rewrite app_nil_r.
  - rewrite concat_app. simpl. by rewrite app_assoc.
Qed.

End BuilderFacts.

(** X9: the case tables of the runtime do not matter.  Two [str.lower]
    that both leave spaces and Hangul alone, and produce neither from other
    characters, give the same schedule or the same exception. *)
Theorem lowering_does_not_matter (lower1 lower2 : pystr -> Z -> pystr -> pystr)
    (now : nat -> Z) (meds : list medication) :
  lower_spec lower1 -> lower_spec lower2 ->
  generate_schedule lower1 now meds = generate_schedule lower2 now meds.
Proof.
  intros H1 H2. unfold generate_schedule. f_equal. apply foldM_ext.
  intros st med. unfold add_medication, med_times.
  replace (time_slots lower2 (dict_get med k_timing (PStr []))
             (dict_get med k_frequency (PStr once_a_day)))
    with (time_slots lower1 (dict_get med k_timing (PStr []))
             (dict_get med k_frequency (PStr once_a_day))); [done|].
  destruct (dict_get med k_timing (PStr [])); try reflexivity.
  by rewrite (time_slots_str lower1 H1), (time_slots_str lower2 H2).
Qed.

(** ** The response parser on arbitrary replies *)

Lemma split_go_nonempty (sep : pystr) (s : pystr) :
  forall skip cur, exists p rest, split_go sep skip cur s = p :: rest.
Proof.
  induction s as [|c s IH]; intros skip cur; [by eexists _, _|].
  cbn [split_go]. destruct skip as [|k]; [|apply IH].
  destruct (startswith sep (c :: s)); [by eexists _, _ | apply IH].
Qed.

(** Where the separator occurs, [split] gives at least two pieces. *)
Lemma split_go_two (c0 : Z) (sep' : pystr) (s : pystr) :
  forall cur, contains (c0 :: sep') s = true ->
  exists p q rest, split_go (c0 :: sep') 0 cur s = p :: q :: rest.
Proof.
  induction s as [|c s IH]; intros cur H; [done|].
  rewrite contains_cons in H. cbn [split_go].
  destruct (startswith (c0 :: sep') (c :: s)).
  - destruct (split_go_nonempty (c0 :: sep') s (length (c0 :: sep') - 1) [])
      as (q & rest & ->). by eexists _, _, _.
  - apply IH. exact H.
Qed.

(** Every piece of a [split] is a contiguous part of the text. *)
Lemma split_go_pieces (sep : pystr) (s : pystr) :
  forall skip cur front p,
  skip = 0%nat \/ cur = [] ->
  p ∈ split_go sep skip cur s ->
  exists a b, front ++ cur ++ s = a ++ p ++ b.
Proof.
  induction s as [|c s IH]; intros skip cur front p Hinv Hp.
  - apply list_elem_of_singleton in Hp as ->. by exists front, [].
  - cbn [split_go] in Hp. destruct skip as [|k].
    + destruct (startswith sep (c :: s)).
      * apply elem_of_cons in Hp as [->|Hp]; [by exists front, (c :: s)|].
        destruct (IH _ [] (front ++ cur ++ [c]) p (or_intror eq_refl) Hp) as (a & b & Hab).
        exists a, b. rewrite <- Hab. by rewrite <- !app_assoc.
      * destruct (IH _ (cur ++ [c]) front p (or_introl eq_refl) Hp) as (a & b & Hab).
        exists a, b. rewrite <- Hab. by rewrite <- !app_assoc.
    + destruct Hinv as [?| ->]; [done|].
      destruct (IH _ [] (front ++ [c]) p (or_intror eq_refl) Hp) as (a & b & Hab).
      exists a, b. rewrite <- Hab. by rewrite <- !app_assoc.
Qed.

Lemma str_split_pieces (sep s p : pystr) :
  p ∈ str_split sep s -> exists a b, s = a ++ p ++ b.
Proof.
  intros Hp. exact (split_go_pieces sep s 0%nat [] [] p (or_introl eq_refl) Hp).
Qed.

Lemma fenced_piece (c0 : Z) (sep' : pystr) (text : pystr) :
  contains (c0 :: sep') text = true ->
  exists t,
    (after ← list_item (str_split (c0 :: sep') text) 1;
     list_item (str_split (c0 :: [96; 96]) after) 0) = Ok t /\
    exists a b, text = a ++ t ++ b.
Proof.
  intros H. unfold str_split.
  destruct (split_go_two c0 sep' text [] H) as (p & q & rest & Hsplit).
  rewrite Hsplit. unfold list_item. cbn [lookup list_lookup mbind result_bind].
  destruct (split_go_nonempty (c0 :: [96; 96]) q 0%nat []) as (t & rest' & Ht).
  rewrite Ht. exists t. split; [reflexivity|].
  destruct (str_split_pieces (c0 :: sep') text q) as (a & b & ->).
  { unfold str_split. rewrite Hsplit. set_solver. }
  destruct (str_split_pieces (c0 :: [96; 96]) q t) as (a' & b' & ->).
  { unfold str_split. rewrite Ht. set_solver. }
  exists (a ++ a'), (b' ++ b). by rewrite <- !app_assoc.
Qed.

(** X10: the two indexings of lines 62 and 64 are always in range: for
    every reply the fence handling returns a text, never IndexError; and
    that text is a contiguous part of the reply. *)
Theorem payload_is_part_of_reply (response_text : pystr) :
  exists t, payload_text response_text = Ok t /\
    exists a b, response_text = a ++ t ++ b.
Proof.
  unfold payload_text.
  destruct (contains fence_json response_text) eqn:Hj.
  { exact (fenced_piece 96 [96; 96; 106; 115; 111; 110] response_text Hj). }
  destruct (contains fence response_text) eqn:Hf.
  { exact (fenced_piece 96 [96; 96] response_text Hf). }
  exists response_text. split; [done|]. exists [], []. by rewrite app_nil_r.
Qed.

Lemma contains_middle (k a b : pystr) : contains k (a ++ k ++ b) = true.
Proof.
  induction a as [|c a IH].
  - cbn [app]. apply startswith_contains, startswith_app_self.
  - cbn [app]. rewrite contains_cons, IH. apply orb_true_r.
Qed.

Lemma payload_text_block_json (before a after : pystr) :
  Forall (fun c => c <> 96) before ->
  no_start fence_json a (fence ++ after) ->
  no_start fence a (fence ++ after) ->
  contains fence_json (fence ++ after) = false ->
  payload_text (before ++ fence_json ++ a ++ fence ++ after) = Ok a.
Proof.
  intros Hb Hj Hf Hafter. unfold payload_text.
  rewrite contains_middle.
  rewrite (str_split_first 96 [96; 96; 106; 115; 111; 110] before (a ++ fence ++ after)
             (no_start_foreign 96 _ before _ Hb)
           : str_split fence_json (before ++ fence_json ++ a ++ fence ++ after) =
             before :: str_split fence_json (a ++ fence ++ after)).
  rewrite (str_split_none fence_json (a ++ fence ++ after))
    by (by apply contains_app_no_start).
  unfold list_item. cbn [lookup list_lookup mbind result_bind].
  rewrite (str_split_first 96 [96; 96] a after Hf
           : str_split fence (a ++ fence ++ after) = a :: str_split fence after).
  reflexivity.
Qed.

Lemma payload_text_block_bare (before a after : pystr) :
  Forall (fun c => c <> 96) before ->
  contains fence_json (fence ++ a ++ fence ++ after) = false ->
  no_start fence a (fence ++ after) ->
  contains fence a = false ->
  payload_text (before ++ fence ++ a ++ fence ++ after) = Ok a.
Proof.
  intros Hb Hj Hf Ha. unfold payload_text.
  rewrite (contains_app_no_start fence_json before (fence ++ a ++ fence ++ after)
             (no_start_foreign 96 _ before _ Hb) Hj).
  rewrite contains_middle.
  rewrite (str_split_first 96 [96; 96] before (a ++ fence ++ after)
             (no_start_foreign 96 _ before _ Hb)
           : str_split fence (before ++ fence ++ a ++ fence ++ after) =
             before :: str_split fence (a ++ fence ++ after)).
  rewrite (str_split_first 96 [96; 96] a after Hf
           : str_split fence (a ++ fence ++ after) = a :: str_split fence after).
  unfold list_item. cbn [lookup list_lookup mbind result_bind].
  by rewrite str_split_none.
Qed.

Section ParserFacts.

Variable json_loads : pystr -> result pyval.

(** X11: prose around the block is ignored.  When the reply is some text
    without backquotes, then a fenced block of either kind around a payload
    without the fence marker, then any text that opens no further [json]
    fence, the decoder is given the stripped payload and nothing else. *)
Theorem prose_around_the_block_is_ignored (before ws1 payload ws2 after : pystr) :
  Forall (fun c => c <> 96) before ->
  contains fence payload = false ->
  blanks ws1 -> blanks ws2 ->
  contains fence_json (fence ++ after) = false ->
  parse_response json_loads (before ++ fenced_json ws1 payload ws2 ++ after) =
    json_loads (strip payload) /\
  parse_response json_loads (before ++ fenced_bare ws1 payload ws2 ++ after) =
    json_loads (strip payload).
Proof.
  intros Hb Hp [Hne1 H1] H2 Hafter. unfold parse_response, fenced_json, fenced_bare.
  assert (Hf : forall rest, no_start fence (ws1 ++ payload ++ ws2) rest).
  { intros rest. apply no_start_in_block; try done. apply space_not_in_fence. }
  assert (Hj : forall rest, no_start fence_json (ws1 ++ payload ++ ws2) rest).
  { intros rest. apply no_start_in_block; try done.
    - apply space_not_in_fence_json.
    - by apply contains_fence_json. }
  replace (before ++ (fence_json ++ ws1 ++ payload ++ ws2 ++ fence) ++ after)
    with (before ++ fence_json ++ (ws1 ++ payload ++ ws2) ++ fence ++ after)
    by (by rewrite <- !app_assoc).
  replace (before ++ (fence ++ ws1 ++ payload ++ ws2 ++ fence) ++ after)
    with (before ++ fence ++ (ws1 ++ payload ++ ws2) ++ fence ++ after)
    by (by rewrite <- !app_assoc).
  rewrite payload_text_block_json by done.
  rewrite payload_text_block_bare; try done.
  - cbn [mbind result_bind]. rewrite strip_blanks by (done || apply H2). done.
  - apply contains_app_no_start.
    + destruct ws1 as [|h t]; [done|]. simpl in H1.
      apply andb_true_iff in H1 as [Hh _].
      assert (E1 : (96 =? h) = false).
      { apply Z.eqb_neq. intros <-. vm_compute in Hh. discriminate. }
      assert (E2 : (106 =? h) = false).
      { apply Z.eqb_neq. intros <-. vm_compute in Hh. discriminate. }
      unfold fence, fence_json. cbn [no_start app startswith].
      rewrite E1, E2. repeat split; reflexivity.
    + by apply contains_app_no_start.
  - specialize (Hf []). apply contains_app_no_start with (rest := []) in Hf; [|reflexivity].
    by rewrite app_nil_r in Hf.
Qed.

(** X12: the stored list is replaced as a whole.  When the reply decodes
    to an object with the medications field, the handler stores the value of
    the field in place of the old list, whatever either holds, shows the
    success notice, and leaves the key and the transcript alone. *)
Theorem analysis_replaces_the_list (response : result pystr) (st : session)
    (d : gmap pystr pyval) (meds : pyval) :
  response ≫= parse_response json_loads = Ok (PDict d) ->
  d !! k_medications = Some meds ->
  register_medications json_loads response st =
    Outcome (Session (api_key st) meds (chat_history st)) [AnalysisDone] None.
Proof.
  intros Hparse Hd. unfold register_medications, analyze_prescription.
  rewrite Hparse. cbn [truthy].
  rewrite bool_decide_eq_false_2.
  - cbn [negb py_in]. rewrite Hd.
    rewrite bool_decide_eq_true_2 by (by eexists). cbn [py_getitem]. by rewrite Hd.
  - intros ->. by rewrite lookup_empty in Hd.
Qed.

End ParserFacts.

(** ** The schedule page *)

Section SortedFacts.

Context {A K : Type} (key : A -> K) (le : K -> K -> bool).

Lemma insert_sorted_perm (x : A) (l : list A) : insert_sorted key le x l ≡ₚ x :: l.
Proof.
  induction l as [|y l IH]; [done|]. simpl.
  destruct (le (key x) (key y)); [done|]. rewrite IH. apply Permutation_swap.
Qed.

Lemma py_sorted_perm (l : list A) : py_sorted key le l ≡ₚ l.
Proof.
  induction l as [|x l IH]; [done|]. simpl. by rewrite insert_sorted_perm, IH.
Qed.

(** An element goes past the elements with a smaller key ... *)
Lemma insert_sorted_skip (x : A) (front rest : list A) :
  Forall (fun y => le (key x) (key y) = false) front ->
  insert_sorted key le x (front ++ rest) = front ++ insert_sorted key le x rest.
Proof.
  induction 1 as [|y front Hy _ IH]; [done|]. simpl. by rewrite Hy, IH.
Qed.

(** ... and stops before the first one whose key is not smaller. *)
Lemma insert_sorted_here (x : A) (rest : list A) :
  Forall (fun y => le (key x) (key y) = true) rest ->
  insert_sorted key le x rest = x :: rest.
Proof. destruct 1 as [|y rest Hy _]; [done|]. simpl. by rewrite Hy. Qed.

Hypothesis le_total : forall a b, le a b = true \/ le b a = true.
Hypothesis le_trans : forall a b c, le a b = true -> le b c = true -> le a c = true.

Lemma insert_sorted_sorted (x : A) (l : list A) :
  StronglySorted (fun a b => le (key a) (key b) = true) l ->
  StronglySorted (fun a b => le (key a) (key b) = true) (insert_sorted key le x l).
Proof.
  induction 1 as [|y l Hl IH Hy]; simpl; [repeat constructor|].
  destruct (le (key x) (key y)) eqn:Hxy.
  - constructor; [by constructor|]. constructor; [done|].
    eapply Forall_impl; [exact Hy|]. simpl. intros z Hz. by eapply le_trans.
  - constructor; [done|]. rewrite insert_sorted_perm. constructor; [|done].
    destruct (le_total (key x) (key y)); [congruence | done].
Qed.

Lemma py_sorted_sorted (l : list A) :
  StronglySorted (fun a b => le (key a) (key b) = true) (py_sorted key le l).
Proof.
  induction l as [|x l IH]; simpl; [constructor|]. by apply insert_sorted_sorted.
Qed.

End SortedFacts.

Lemma doses_at_time (t : pystr) (doses : list entry) :
  Forall (fun e => e_time e = t) (doses_at t doses).
Proof. unfold doses_at. apply Forall_forall. intros e He. by apply list_elem_of_filter in He as [? _]. Qed.

Lemma doses_at_cons (t : pystr) (e : entry) (doses : list entry) :
  doses_at t (e :: doses) =
  if decide (e_time e = t) then e :: doses_at t doses else doses_at t doses.
Proof. unfold doses_at. by rewrite filter_cons. Qed.

Ltac slot_cases He :=
  repeat match goal with
  | |- context [decide (?a = ?b)] =>
    destruct (decide (a = b)) as [Heq|Hne];
    [first [exfalso; rewrite He in Heq; vm_compute in Heq; discriminate Heq | clear Heq]
    |first [exfalso; apply Hne; exact He | clear Hne]]
  end.

Ltac slot_forall He :=
  rewrite ?Forall_app; repeat split;
  (eapply Forall_impl; [eassumption|]);
  (let y := fresh "y" in let Hy := fresh "Hy" in
   intros y Hy; simpl; rewrite He, Hy; reflexivity).

(** Sorting a day by time sorts it by slot, the entries of a slot staying
    in their order. *)
Lemma py_sorted_by_slot (doses : list entry) :
  Forall (fun e => e_time e ∈ canonical_slots) doses ->
  py_sorted e_time str_le doses = by_slot doses.
Proof.
  induction 1 as [|e doses He _ IH]; [reflexivity|].
  cbn [py_sorted]. rewrite IH. unfold by_slot.
  pose proof (doses_at_time t0800 doses) as H1.
  pose proof (doses_at_time t1200 doses) as H2.
  pose proof (doses_at_time t1800 doses) as H3.
  pose proof (doses_at_time t2200 doses) as H4.
  rewrite !doses_at_cons. unfold canonical_slots in He.
  repeat (apply elem_of_cons in He as [He|He]); [| | | |by apply elem_of_nil in He];
    slot_cases He.
  - apply insert_sorted_here. slot_forall He.
  - rewrite insert_sorted_skip by slot_forall He.
    f_equal. apply insert_sorted_here. slot_forall He.
  - rewrite insert_sorted_skip by slot_forall He. f_equal.
    rewrite insert_sorted_skip by slot_forall He.
    f_equal. apply insert_sorted_here. slot_forall He.
  - rewrite insert_sorted_skip by slot_forall He. f_equal.
    rewrite insert_sorted_skip by slot_forall He. f_equal.
    rewrite insert_sorted_skip by slot_forall He.
    f_equal. apply insert_sorted_here. slot_forall He.
Qed.

Lemma by_slot_perm (doses : list entry) :
  Forall (fun e => e_time e ∈ canonical_slots) doses -> by_slot doses ≡ₚ doses.
Proof. intros H. rewrite <- (py_sorted_by_slot doses H). apply py_sorted_perm. Qed.

Lemma day_columns_by_slot (doses : list entry) :
  Forall (fun e => e_time e ∈ canonical_slots) doses -> doses <> [] ->
  day_columns (by_slot doses) = length doses.
Proof.
  intros H Hne. pose proof (by_slot_perm doses H) as Hperm.
  destruct (by_slot doses) as [|e rest] eqn:Hb.
  - apply Permutation_nil_l in Hperm. done.
  - unfold day_columns. by rewrite Hperm.
Qed.

Lemma shown_dates_week (today : Z) (doses : list entry) (sched : schedule) :
  week_view today (Some doses) sched -> shown_dates sched = week_from today.
Proof.
  intros Hview. unfold shown_dates.
  assert (Hanti : AntiSymm (=) (fun a b : Z => (id a <=? id b) = true)).
  { intros a b Hab Hba. unfold id in *. lia. }
  assert (Hkeys : (map_to_list sched).*1 ≡ₚ week_from today).
  { apply NoDup_Permutation.
    - apply NoDup_fst_map_to_list.
    - unfold week_from.
      repeat (apply NoDup_cons; split; [rewrite ?elem_of_cons, elem_of_nil; lia|]).
      apply NoDup_nil_2.
    - intros date. rewrite list_elem_of_fmap. split.
      + intros [[d ds] [-> Hin]]. apply elem_of_map_to_list in Hin.
        rewrite (Hview d) in Hin. case_bool_decide; [|done]. simpl.
        unfold week_from. rewrite !elem_of_cons, elem_of_nil. lia.
      + intros Hin. exists (date, doses). split; [done|].
        apply elem_of_map_to_list. rewrite (Hview date).
        rewrite bool_decide_eq_true_2; [done|].
        unfold week_from in Hin. rewrite !elem_of_cons, elem_of_nil in Hin. lia. }
  rewrite (StronglySorted_unique (fun a b : Z => (id a <=? id b) = true)
             (py_sorted id Z.leb (map_to_list sched).*1) (week_from today)).
  - reflexivity.
  - apply py_sorted_sorted; intros; lia.
  - unfold week_from. repeat (constructor; [|repeat constructor; unfold id; lia]).
    constructor.
  - by rewrite py_sorted_perm.
Qed.

(** The dates the page draws: dates of the schedule, in ascending order,
    seven at most, and earlier than every date it leaves out. *)
Lemma shown_dates_spec (sched : schedule) :
  StronglySorted Z.lt (shown_dates sched) /\
  length (shown_dates sched) = (7 `min` size sched)%nat /\
  (forall date, date ∈ shown_dates sched -> is_Some (sched !! date)) /\
  (forall date, is_Some (sched !! date) -> date ∉ shown_dates sched ->
     Forall (fun d => d < date) (shown_dates sched)).
Proof.
  unfold shown_dates.
  set (keys := (map_to_list sched).*1). set (sorted := py_sorted id Z.leb keys).
  assert (Hperm : sorted ≡ₚ keys) by apply py_sorted_perm.
  assert (Hnodup : NoDup sorted) by (rewrite Hperm; apply NoDup_fst_map_to_list).
  assert (Hle : StronglySorted (fun a b : Z => (id a <=? id b) = true) sorted)
    by (apply py_sorted_sorted; intros; lia).
  assert (Hlt : StronglySorted Z.lt sorted).
  { clear Hperm. induction Hle as [|x l Hl IH Hx]; [constructor|].
    apply NoDup_cons in Hnodup as [Hnotin Hnodup]. constructor; [by apply IH|].
    apply Forall_forall. intros y Hy. rewrite Forall_forall in Hx.
    specialize (Hx y Hy). unfold id in Hx.
    assert (x <> y) by (by intros ->). lia. }
  assert (Hkey : forall date, date ∈ sorted <-> is_Some (sched !! date)).
  { intros date. rewrite Hperm. unfold keys. rewrite list_elem_of_fmap. split.
    - intros [[d ds] [-> Hin]]. apply elem_of_map_to_list in Hin. by eexists.
    - intros [ds Hds]. exists (date, ds). split; [done|]. by apply elem_of_map_to_list. }
  assert (Hsplit : sorted = take 7 sorted ++ drop 7 sorted) by (by rewrite take_drop).
  rewrite Hsplit in Hlt.
  split; [by apply StronglySorted_app_1_l in Hlt|]. split.
  { rewrite length_take. f_equal. rewrite Hperm. unfold keys.
    by rewrite length_fmap, length_map_to_list. }
  split.
  - intros date Hin. apply Hkey. rewrite Hsplit. apply elem_of_app. by left.
  - intros date Hdate Hout. apply Hkey in Hdate. rewrite Hsplit in Hdate.
    apply elem_of_app in Hdate as [Hin|Hin]; [done|].
    apply Forall_forall. intros d Hd.
    exact (StronglySorted_app_1_elem_of _ _ _ d date Hlt Hd Hin).
Qed.

(** The loop of lines 261-284 over dates whose lists are not empty and
    stand at the four slots. *)
Lemma schedule_page_views (sched : schedule) (dates : list Z) (views : list day_view) :
  Forall (fun date => exists doses,
            sched !! date = Some doses /\ doses <> [] /\
            Forall (fun e => e_time e ∈ canonical_slots) doses) dates ->
  foldM (fun views date =>
    items ← day_items sched date;
    Ok (views ++ [DayView date (day_columns items) (imap (fun idx item => (idx, item)) items)]))
    dates views = Ok (views ++ (view_of sched <$> dates)).
Proof.
  intros H. revert views.
  induction H as [|date dates (doses & Hd & Hne & Hslots) _ IH]; intros views.
  - simpl. by rewrite app_nil_r.
  - assert (Hitems : day_items sched date = Ok (by_slot doses)).
    { unfold day_items. by rewrite Hd, py_sorted_by_slot. }
    cbn [foldM]. rewrite Hitems. cbn [mbind result_bind]. rewrite IH.
    rewrite day_columns_by_slot by done.
    rewrite fmap_cons. unfold view_of at 2. rewrite Hd. simpl.
    by rewrite <- app_assoc.
Qed.

Section PageFacts.

Variable lower_at : pystr -> Z -> pystr -> pystr.
Variable now : nat -> Z.

(** X13: on any clock, the page of a returned schedule draws the earliest
    dates of the schedule in ascending order, seven at most (a call that
    runs past midnight leaves eight dates; the last is not drawn).  Each day
    drawn shows the entries of that date slot after slot: all of 08:00, then
    12:00, 18:00, 22:00, those of one slot in the order they have in the
    date's list.  No entry is lost or shown twice, and the day has as many
    columns as entries, at least one. *)
Theorem page_draws_earliest_days_by_slot (meds : list medication) (sched : schedule) :
  generate_schedule lower_at now meds = Ok sched ->
  exists views,
    schedule_page sched = Ok views /\
    length views = (7 `min` size sched)%nat /\
    StronglySorted Z.lt (v_date <$> views) /\
    (forall date, is_Some (sched !! date) -> date ∉ v_date <$> views ->
       Forall (fun d => d < date) (v_date <$> views)) /\
    Forall (fun v => exists doses,
      sched !! v_date v = Some doses /\
      v_items v = imap (fun idx item => (idx, item)) (by_slot doses) /\
      by_slot doses ≡ₚ doses /\
      v_columns v = length doses /\
      (0 < length doses)%nat) views.
Proof.
  intros Hrun.
  destruct (shown_dates_spec sched) as (Hsorted & Hlen & Hkeys & Hearliest).
  assert (Hgood : forall date, date ∈ shown_dates sched -> exists doses,
            sched !! date = Some doses /\ doses <> [] /\
            Forall (fun e => e_time e ∈ canonical_slots) doses).
  { intros date Hin. destruct (Hkeys date Hin) as [doses Hd]. exists doses.
    destruct (returned_days_good lower_at now meds sched Hrun date doses Hd) as [Hne Hall].
    split; [done|]. split; [done|].
    eapply Forall_impl; [exact Hall|]. by intros e [_ ?]. }
  assert (Hdates : v_date <$> (view_of sched <$> shown_dates sched) = shown_dates sched).
  { rewrite <- list_fmap_compose. by rewrite <- (list_fmap_id (shown_dates sched)) at 2. }
  exists (view_of sched <$> shown_dates sched).
  split.
  { unfold schedule_page. rewrite schedule_page_views; [done|].
    apply Forall_forall. exact Hgood. }
  rewrite Hdates. split; [by rewrite length_fmap|]. split; [done|]. split; [done|].
  apply Forall_fmap, Forall_forall. intros date Hin.
  destruct (Hgood date Hin) as (doses & Hd & Hne & Hslots).
  exists doses. unfold view_of. simpl. rewrite Hd. simpl.
  split; [done|]. split; [done|]. split; [by apply by_slot_perm|].
  split; [done|]. destruct doses; [done | simpl; lia].
Qed.

(** X14: on a clock that stays on one day the page of a non-empty list
    draws seven days, from that day on in the order of the calendar, every
    day with the same entries, slot after slot, the entry of column [i] in
    the [i]-th place. *)
Theorem week_page_on_a_steady_clock (today : Z) (meds : list medication)
    (sched : schedule) :
  meds <> [] ->
  steady now today 0 (7 * length meds) ->
  generate_schedule lower_at now meds = Ok sched ->
  exists doses,
    sched !! today = Some doses /\
    schedule_page sched =
      Ok ((fun date => DayView date (length doses)
             (imap (fun idx item => (idx, item)) (by_slot doses))) <$> week_from today).
Proof.
  intros Hne Hclock Hrun.
  assert (Hfold := Hrun). unfold generate_schedule in Hfold.
  destruct (foldM (add_medication lower_at now) meds (0%nat, ∅)) as [st'|] eqn:Hf; [|done].
  destruct (add_medications_plan lower_at now meds _ _ Hf) as [plan Hplan].
  destruct (generate_schedule_steady lower_at now today meds plan Hne Hplan Hclock)
    as (sched' & Hrun' & Hview).
  rewrite Hrun in Hrun'. injection Hrun' as <-.
  exists (concat plan).
  assert (Hday : forall date, today <= date < today + 7 ->
            sched !! date = Some (concat plan)).
  { intros date Hdate. rewrite (Hview date). by rewrite bool_decide_eq_true_2. }
  split; [apply Hday; lia|].
  destruct (returned_days_good lower_at now meds sched Hrun today (concat plan))
    as [Hnonempty Hgood]; [apply Hday; lia|].
  assert (Hslots : Forall (fun e => e_time e ∈ canonical_slots) (concat plan)).
  { eapply Forall_impl; [exact Hgood|]. by intros e [_ ?]. }
  assert (Hitems : forall date, today <= date < today + 7 ->
            day_items sched date = Ok (by_slot (concat plan))).
  { intros date Hdate. unfold day_items. by rewrite (Hday date Hdate), py_sorted_by_slot. }
  unfold schedule_page. rewrite (shown_dates_week today (concat plan) sched Hview).
  unfold week_from. cbn [foldM].
  rewrite !Hitems by lia. cbn [mbind result_bind app].
  rewrite (day_columns_by_slot (concat plan)) by done. reflexivity.
Qed.

End PageFacts.

(** ** The prompt helpers and the session *)

Lemma contains_app_r (k a s : pystr) :
  contains k s = true -> contains k (a ++ s) = true.
Proof.
  intros H. induction a as [|c a IH]; [done|].
  cbn [app]. rewrite contains_cons, IH. apply orb_true_r.
Qed.

Lemma names_of_dicts (dicts : list medication) (vals : list pyval) :
  Forall2 (fun d v => d !! k_name = Some v) dicts vals ->
  for_each (fun med => py_getitem med k_name) (PDict <$> dicts) = Ok vals.
Proof.
  induction 1 as [|d v dicts vals Hd _ IH]; [reflexivity|].
  rewrite fmap_cons. cbn [for_each py_getitem]. by rewrite Hd, IH.
Qed.

Lemma names_of_dicts_missing (dicts : list medication) :
  Exists (fun d => d !! k_name = None) dicts ->
  for_each (fun med => py_getitem med k_name) (PDict <$> dicts) =
    Raise (KeyError (KStr k_name)).
Proof.
  induction dicts as [|d dicts IH]; intros Hex; [by apply Exists_nil in Hex|].
  rewrite fmap_cons. cbn [for_each py_getitem].
  destruct (d !! k_name) as [v|] eqn:Hd; [|reflexivity].
  apply Exists_cons in Hex as [Hhere|Hlater]; [congruence|].
  cbn [mbind result_bind]. by rewrite IH.
Qed.

Lemma for_each_as_str (names : list pystr) :
  for_each as_str (PStr <$> names) = Ok names.
Proof.
  induction names as [|n names IH]; [reflexivity|].
  rewrite fmap_cons. cbn [for_each as_str mbind result_bind]. by rewrite IH.
Qed.

Lemma joined_names_of_dicts (dicts : list medication) (names : list pystr) :
  Forall2 (fun d n => d !! k_name = Some (PStr n)) dicts names ->
  joined_names (PList (PDict <$> dicts)) = Ok (str_join comma names).
Proof.
  intros H. unfold joined_names, py_join. cbn [py_iter mbind result_bind].
  rewrite (names_of_dicts dicts (PStr <$> names)).
  - cbn [mbind result_bind]. by rewrite for_each_as_str.
  - apply Forall2_fmap_r. exact H.
Qed.

Lemma joined_names_missing (dicts : list medication) :
  Exists (fun d => d !! k_name = None) dicts ->
  joined_names (PList (PDict <$> dicts)) = Raise (KeyError (KStr k_name)).
Proof.
  intros H. unfold joined_names. cbn [py_iter mbind result_bind].
  by rewrite names_of_dicts_missing.
Qed.

Section HelperFacts.

Variable generate_content : pystr -> result pystr.
Variable exn_text : exn -> pystr.

(** X15: with a stored record that has no name, neither helper calls the
    model: whatever the service would answer, the interaction check and
    the chat return their error text for KeyError 'name'. *)
Theorem nameless_record_blocks_the_helpers (dicts : list medication) (question : pystr) :
  Exists (fun d => d !! k_name = None) dicts ->
  check_drug_interactions generate_content exn_text (PList (PDict <$> dicts)) =
    interaction_failed ++ exn_text (KeyError (KStr k_name)) /\
  chatbot_response generate_content exn_text question (PList (PDict <$> dicts)) =
    chat_failed ++ exn_text (KeyError (KStr k_name)).
Proof.
  intros H. unfold check_drug_interactions, chatbot_response.
  by rewrite (joined_names_missing dicts H).
Qed.

(** X16: with records that all have a string name, each helper makes one
    call, and its prompt holds the names in the order of the list, joined
    by a comma and a space; the chat prompt also holds the question as
    typed.  The helper returns the reply, or its error text with the
    exception of the call. *)
Theorem prompts_carry_names_and_question
    (dicts : list medication) (names : list pystr) (question : pystr) :
  Forall2 (fun d n => d !! k_name = Some (PStr n)) dicts names ->
  (check_drug_interactions generate_content exn_text (PList (PDict <$> dicts)) =
     match generate_content (interaction_prompt (str_join comma names)) with
     | Ok text => text
     | Raise e => interaction_failed ++ exn_text e
     end /\
   contains (str_join comma names) (interaction_prompt (str_join comma names)) = true) /\
  (chatbot_response generate_content exn_text question (PList (PDict <$> dicts)) =
     match generate_content (chat_prompt (chat_context (str_join comma names)) question) with
     | Ok text => text
     | Raise e => chat_failed ++ exn_text e
     end /\
   contains (str_join comma names)
     (chat_prompt (chat_context (str_join comma names)) question) = true /\
   contains question (chat_prompt (chat_context (str_join comma names)) question) = true).
Proof.
  intros H. unfold check_drug_interactions, chatbot_response.
  rewrite (joined_names_of_dicts dicts names H). cbn [mbind result_bind].
  repeat split.
  - unfold interaction_prompt. apply contains_middle.
  - unfold chat_prompt, chat_context. rewrite <- app_assoc.
    apply contains_app_r, contains_middle.
  - unfold chat_prompt. apply contains_app_r, contains_app_r, contains_middle.
Qed.

End HelperFacts.

Lemma register_keeps_key_and_chat json_loads response st :
  api_key (o_session (register_medications json_loads response st)) = api_key st /\
  chat_history (o_session (register_medications json_loads response st)) = chat_history st.
Proof.
  unfold register_medications.
  destruct (analyze_prescription json_loads response) as [parsed shown].
  destruct (if truthy parsed then py_in k_medications parsed else Ok false) as [[|]|];
    [|done|done].
  by destruct (py_getitem parsed k_medications).
Qed.

Lemma pairs_ind {A : Type} (P : list A -> Prop) :
  P [] -> (forall x, P [x]) -> (forall x y l, P l -> P (x :: y :: l)) ->
  forall l, P l.
Proof.
  intros H0 H1 H2 l. assert (H : P l /\ forall x, P (x :: l)); [|by destruct H].
  induction l as [|y l [IH1 IH2]]; [by split|].
  split; [apply IH2|]. intros x. by apply H2.
Qed.

Lemma paired_app (history : list (pystr * pystr)) (question answer : pystr) :
  paired history ->
  paired (history ++ [(role_user, question); (role_assistant, answer)]).
Proof.
  induction history as [| |q a rest IH] using pairs_ind; simpl; [done|done|].
  intros (Hq & Ha & Hrest). auto.
Qed.

Section SessionFacts.

Variable json_loads : pystr -> result pyval.
Variable exn_text : exn -> pystr.

Lemma act_keeps_key (a : action) (st : session) :
  api_key (act json_loads exn_text a st) = api_key st.
Proof.
  destruct a as [response| |user_input generate_content|]; simpl.
  - apply register_keeps_key_and_chat.
  - unfold delete_all. by destruct (truthy (medications st) && list_renders (medications st)).
  - unfold submit_question. by destruct user_input as [[|c q]|].
  - unfold clear_chat. by destruct (chat_history st).
Qed.

Lemma act_keeps_paired (a : action) (st : session) :
  paired (chat_history st) -> paired (chat_history (act json_loads exn_text a st)).
Proof.
  intros Hst. destruct a as [response| |user_input generate_content|]; simpl.
  - by rewrite (proj2 (register_keeps_key_and_chat json_loads response st)).
  - unfold delete_all. by destruct (truthy (medications st) && list_renders (medications st)).
  - unfold submit_question. destruct user_input as [[|c q]|]; try done.
    cbn [chat_history]. rewrite <- app_assoc. by apply paired_app.
  - unfold clear_chat. destruct (chat_history st) eqn:E; [by rewrite E | done].
Qed.

(** X17: whatever the user does, in whatever order, with every run of the
    script taken to its end, the transcript is a sequence of turns: a
    question of the user, then the answer to it. *)
Theorem transcript_is_questions_and_answers (st : session) :
  reachable json_loads exn_text st -> paired (chat_history st).
Proof.
  induction 1 as [|st api_key_input a _ IH]; [done|].
  unfold run_script. destruct (has_key (sidebar api_key_input st)).
  - apply act_keeps_paired. by destruct api_key_input.
  - by destruct api_key_input.
Qed.

(** X18: no run of the script clears or alters the stored key; it changes
    only when a non-empty key is typed into the sidebar, to that key. *)
Theorem key_is_only_set_by_typing (api_key_input : pystr) (a : action) (st : session) :
  api_key (run_script json_loads exn_text api_key_input a st) =
    match api_key_input with
    | [] => api_key st
    | _ :: _ => Some api_key_input
    end.
Proof.
  unfold run_script. destruct (has_key (sidebar api_key_input st)).
  - rewrite act_keeps_key. by destruct api_key_input.
  - by destruct api_key_input.
Qed.

End SessionFacts.

(** X19: the delete button works when every stored record has a name, and
    is out of reach when one has none: the panel above the button raises
    KeyError first, and the list stays as it is. *)
Theorem delete_needs_every_name (key : option pystr) (dicts : list medication)
    (chat : list (pystr * pystr)) :
  (dicts <> [] ->
   Forall (fun d => is_Some (d !! k_name)) dicts ->
   delete_all (Session key (PList (PDict <$> dicts)) chat) = Session key (PList []) chat) /\
  (Exists (fun d => d !! k_name = None) dicts ->
   delete_all (Session key (PList (PDict <$> dicts)) chat) =
     Session key (PList (PDict <$> dicts)) chat).
Proof.
  unfold delete_all, list_renders. cbn [medications py_iter mbind result_bind]. split.
  - intros Hne Hnames.
    rewrite (names_of_dicts dicts ((fun d => default PNone (d !! k_name)) <$> dicts)).
    + destruct dicts; [done|]. reflexivity.
    + clear Hne. induction Hnames as [|d ds [v Hv] _ IH]; [constructor|].
      rewrite fmap_cons. constructor; [by rewrite Hv | exact IH].
  - intros Hex. rewrite (names_of_dicts_missing dicts Hex). by rewrite andb_false_r.
Qed.

(** ** The further properties on concrete inputs *)

Lemma plain_lower_spec : lower_spec plain_lower_at.
Proof.
  split; intros before c rest Hc; unfold plain_lower_at; [done|].
  split; [done|]. simpl. by rewrite Hc.
Qed.

Lemma resolved_slots_are_canonical_witness :
  time_slots ascii_lower_at (PStr (utf8 "아침, 취침 전")) (PInt 3) = Ok [t0800; t2200] /\
  [t0800; t2200] <> [] /\ sublist [t0800; t2200] canonical_slots.
Proof.
  assert (H : time_slots ascii_lower_at (PStr (utf8 "아침, 취침 전")) (PInt 3) =
              Ok [t0800; t2200]) by reflexivity.
  split; [exact H|].
  exact (resolved_slots_are_canonical ascii_lower_at _ _ _ H).
Defined.

Lemma resolver_errors_witness :
  time_slots ascii_lower_at PNone (PStr (utf8 "1일 3회")) = Raise AttributeError /\
  names_a_slot (utf8 "식후") = false /\
  time_slots ascii_lower_at (PStr (utf8 "식후")) (PInt 3) = Raise TypeError /\
  (exists ts, time_slots ascii_lower_at (PStr (utf8 "식후")) (PList [PStr kw_3_times]) = Ok ts) /\
  names_a_slot (utf8 "저녁") = true /\
  (exists ts, time_slots ascii_lower_at (PStr (utf8 "저녁")) PNone = Ok ts).
Proof.
  destruct (resolver_errors ascii_lower_at ascii_lower_spec) as (H1 & H2 & H3).
  split; [apply H1; discriminate|].
  split; [reflexivity|].
  split; [exact (H2 (utf8 "식후") (PInt 3) eq_refl)|].
  split; [exact (H2 (utf8 "식후") (PList [PStr kw_3_times]) eq_refl)|].
  split; [reflexivity|].
  exact (H3 (utf8 "저녁") PNone eq_refl).
Defined.

Lemma first_bad_record_decides_witness :
  Forall (fun med => record_error ascii_lower_at med = None) [amoxicillin_ko] /\
  (exists sched, generate_schedule ascii_lower_at day_zero [amoxicillin_ko] = Ok sched) /\
  record_error ascii_lower_at (<[k_timing := PNone]> ∅) = Some AttributeError /\
  generate_schedule ascii_lower_at day_zero
    ([amoxicillin_ko] ++ <[k_timing := PNone]> ∅ :: [∅]) = Raise AttributeError.
Proof.
  destruct (first_bad_record_decides ascii_lower_at day_zero) as [Hok Hbad].
  assert (H1 : Forall (fun med => record_error ascii_lower_at med = None) [amoxicillin_ko])
    by (repeat constructor).
  assert (H2 : record_error ascii_lower_at (<[k_timing := PNone]> ∅) = Some AttributeError)
    by reflexivity.
  split; [exact H1|]. split; [exact (Hok _ H1)|]. split; [exact H2|].
  exact (Hbad [amoxicillin_ko] _ [∅] AttributeError H1 H2).
Defined.

Lemma returned_days_are_well_formed_witness :
  exists sched,
    generate_schedule ascii_lower_at day_zero [morning_a; morning_b] = Ok sched /\
    map_Forall (fun _ doses =>
      doses <> [] /\
      Forall (fun e => e_taken e = false /\ e_time e ∈ canonical_slots) doses) sched.
Proof.
  destruct (generate_schedule ascii_lower_at day_zero [morning_a; morning_b])
    as [sched|e] eqn:H; [|vm_compute in H; discriminate H].
  exists sched. split; [reflexivity|].
  exact (returned_days_are_well_formed ascii_lower_at day_zero _ sched H).
Defined.

Lemma seven_entries_per_slot_witness :
  exists sched,
    generate_schedule ascii_lower_at day_zero [morning_a; morning_b] = Ok sched /\
    Forall2 (fun med ts => med_times ascii_lower_at med = Ok ts)
      [morning_a; morning_b] [[t0800]; [t0800; t2200]] /\
    total_entries sched = (7 * sum_list (length <$> [[t0800]; [t0800; t2200]]))%nat.
Proof.
  destruct (generate_schedule ascii_lower_at day_zero [morning_a; morning_b])
    as [sched|e] eqn:H; [|vm_compute in H; discriminate H].
  assert (Hslots : Forall2 (fun med ts => med_times ascii_lower_at med = Ok ts)
            [morning_a; morning_b] [[t0800]; [t0800; t2200]])
    by (repeat constructor).
  exists sched. split; [reflexivity|]. split; [exact Hslots|].
  exact (seven_entries_per_slot ascii_lower_at day_zero _ _ sched H Hslots).
Defined.

Lemma other_fields_are_ignored_witness :
  (k_warnings ∉ read_keys) /\
  generate_schedule ascii_lower_at day_zero
    ((fun med => <[k_warnings := PInt 7]> med) <$> [amoxicillin_ko; ∅]) =
  generate_schedule ascii_lower_at day_zero [amoxicillin_ko; ∅].
Proof.
  assert (Hk : k_warnings ∉ read_keys).
  { unfold read_keys. rewrite !not_elem_of_cons. repeat split; try discriminate.
    apply not_elem_of_nil. }
  split; [exact Hk|].
  exact (other_fields_are_ignored ascii_lower_at day_zero k_warnings (PInt 7) _ Hk).
Defined.

Lemma seven_dates_witness :
  exists sched,
    generate_schedule ascii_lower_at day_zero [amoxicillin_ko] = Ok sched /\
    forall date, is_Some (sched !! date) <-> 0 <= date < 0 + 7.
Proof.
  destruct (generate_schedule ascii_lower_at day_zero [amoxicillin_ko])
    as [sched|e] eqn:H; [|vm_compute in H; discriminate H].
  exists sched. split; [reflexivity|].
  refine (seven_dates_on_a_steady_clock ascii_lower_at day_zero 0 [amoxicillin_ko] sched
            _ (day_zero_steady _ _) H).
  discriminate.
Defined.

Lemma schedule_of_appended_lists_witness :
  exists s1 s2,
    generate_schedule ascii_lower_at day_zero [morning_a] = Ok s1 /\
    generate_schedule ascii_lower_at day_zero [morning_b] = Ok s2 /\
    generate_schedule ascii_lower_at day_zero ([morning_a] ++ [morning_b]) =
      Ok (union_with (fun l1 l2 => Some (l1 ++ l2)) s1 s2).
Proof.
  destruct (generate_schedule ascii_lower_at day_zero [morning_a])
    as [s1|e] eqn:H1; [|vm_compute in H1; discriminate H1].
  destruct (generate_schedule ascii_lower_at day_zero [morning_b])
    as [s2|e] eqn:H2; [|vm_compute in H2; discriminate H2].
  exists s1, s2. split; [reflexivity|]. split; [reflexivity|].
  exact (schedule_of_appended_lists ascii_lower_at day_zero 0 [morning_a] [morning_b]
           s1 s2 (day_zero_steady _ _) H1 H2).
Defined.

Lemma lowering_does_not_matter_witness :
  generate_schedule ascii_lower_at day_zero [amoxicillin_ko; morning_b] =
  generate_schedule plain_lower_at day_zero [amoxicillin_ko; morning_b].
Proof.
  exact (lowering_does_not_matter ascii_lower_at plain_lower_at day_zero _
           ascii_lower_spec plain_lower_spec).
Defined.

Lemma prose_around_the_block_witness :
  Forall (fun c => c <> 96) prose_before /\
  contains fence payload_plain = false /\
  blanks [10] /\
  contains fence_json (fence ++ prose_after) = false /\
  parse_response Json.loads (prose_before ++ fenced_json [10] payload_plain [10] ++ prose_after) =
    Json.loads (strip payload_plain) /\
  parse_response Json.loads (prose_before ++ fenced_bare [10] payload_plain [10] ++ prose_after) =
    Json.loads (strip payload_plain).
Proof.
  assert (Hb : Forall (fun c => c <> 96) prose_before).
  { unfold prose_before. repeat (apply Forall_cons; split; [discriminate|]). apply Forall_nil_2. }
  assert (Hp : contains fence payload_plain = false) by reflexivity.
  assert (Hw : blanks [10]) by (split; [discriminate | reflexivity]).
  assert (Ha : contains fence_json (fence ++ prose_after) = false) by reflexivity.
  split; [exact Hb|]. split; [exact Hp|]. split; [exact Hw|]. split; [exact Ha|].
  exact (prose_around_the_block_is_ignored Json.loads prose_before [10] payload_plain [10]
           prose_after Hb Hp Hw Hw Ha).
Defined.

Lemma analysis_replaces_the_list_witness :
  (Ok payload_plain ≫= parse_response Json.loads) =
    Ok (PDict {[ k_medications := PList [PDict {[ k_name := amoxicillin ]}] ]}) /\
  register_medications Json.loads (Ok payload_plain) session_with_amoxicillin =
    Outcome (Session (api_key session_with_amoxicillin)
               (PList [PDict {[ k_name := amoxicillin ]}])
               (chat_history session_with_amoxicillin)) [AnalysisDone] None.
Proof.
  assert (H : (Ok payload_plain ≫= parse_response Json.loads) =
    Ok (PDict {[ k_medications := PList [PDict {[ k_name := amoxicillin ]}] ]}))
    by (vm_compute; reflexivity).
  split; [exact H|].
  exact (analysis_replaces_the_list Json.loads (Ok payload_plain) session_with_amoxicillin
           _ _ H (lookup_singleton_eq _ _)).
Defined.

Lemma page_draws_earliest_days_witness :
  exists sched,
    generate_schedule ascii_lower_at (day_turns_at 3) [morning_b; morning_a] = Ok sched /\
    size sched = 8%nat /\
    exists views,
      schedule_page sched = Ok views /\
      length views = (7 `min` size sched)%nat /\
      StronglySorted Z.lt (v_date <$> views) /\
      (forall date, is_Some (sched !! date) -> date ∉ v_date <$> views ->
         Forall (fun d => d < date) (v_date <$> views)) /\
      Forall (fun v => exists doses,
        sched !! v_date v = Some doses /\
        v_items v = imap (fun idx item => (idx, item)) (by_slot doses) /\
        by_slot doses ≡ₚ doses /\
        v_columns v = length doses /\
        (0 < length doses)%nat) views.
Proof.
  destruct (generate_schedule ascii_lower_at (day_turns_at 3) [morning_b; morning_a])
    as [sched|e] eqn:H; [|vm_compute in H; discriminate H].
  exists sched. split; [reflexivity|]. split.
  { vm_compute in H. injection H as <-. vm_compute. reflexivity. }
  exact (page_draws_earliest_days_by_slot ascii_lower_at (day_turns_at 3) _ sched H).
Defined.

Lemma week_page_witness :
  exists sched doses,
    generate_schedule ascii_lower_at day_zero [morning_b; morning_a] = Ok sched /\
    sched !! 0 = Some doses /\
    schedule_page sched =
      Ok ((fun date => DayView date (length doses)
             (imap (fun idx item => (idx, item)) (by_slot doses))) <$> week_from 0).
Proof.
  destruct (generate_schedule ascii_lower_at day_zero [morning_b; morning_a])
    as [sched|e] eqn:H; [|vm_compute in H; discriminate H].
  destruct (week_page_on_a_steady_clock ascii_lower_at day_zero 0 [morning_b; morning_a]
              sched) as (doses & Hd & Hpage);
    [discriminate | apply day_zero_steady | exact H |].
  exists sched, doses. split; [reflexivity|]. split; [exact Hd | exact Hpage].
Defined.

Lemma nameless_record_witness :
  Exists (fun d : medication => d !! k_name = None) [name_only; ∅] /\
  check_drug_interactions canned_reply sample_exn_text (PList (PDict <$> [name_only; ∅])) =
    interaction_failed ++ sample_exn_text (KeyError (KStr k_name)) /\
  chatbot_response canned_reply sample_exn_text (utf8 "식전? 식후?")
    (PList (PDict <$> [name_only; ∅])) =
    chat_failed ++ sample_exn_text (KeyError (KStr k_name)).
Proof.
  assert (H : Exists (fun d : medication => d !! k_name = None) [name_only; ∅]).
  { apply Exists_cons_tl, Exists_cons_hd. reflexivity. }
  split; [exact H|].
  exact (nameless_record_blocks_the_helpers canned_reply sample_exn_text _ _ H).
Defined.

Lemma prompts_witness :
  Forall2 (fun (d : medication) n => d !! k_name = Some (PStr n))
    [name_only; morning_a] [utf8 "Aspirin"; utf8 "A"] /\
  str_join comma [utf8 "Aspirin"; utf8 "A"] = utf8 "Aspirin, A" /\
  contains (utf8 "Aspirin, A") (interaction_prompt (utf8 "Aspirin, A")) = true /\
  chatbot_response canned_reply sample_exn_text (utf8 "식전? 식후?")
    (PList (PDict <$> [name_only; morning_a])) = utf8 "식후에 드세요." /\
  contains (utf8 "식전? 식후?")
    (chat_prompt (chat_context (utf8 "Aspirin, A")) (utf8 "식전? 식후?")) = true.
Proof.
  assert (H : Forall2 (fun (d : medication) n => d !! k_name = Some (PStr n))
            [name_only; morning_a] [utf8 "Aspirin"; utf8 "A"]) by (repeat constructor).
  destruct (prompts_carry_names_and_question canned_reply sample_exn_text
              [name_only; morning_a] [utf8 "Aspirin"; utf8 "A"] (utf8 "식전? 식후?") H)
    as [[_ Hi] [Hc [_ Hq]]].
  split; [exact H|]. split; [reflexivity|]. split; [exact Hi|].
  split; [exact Hc|]. exact Hq.
Defined.

Lemma transcript_witness :
  reachable Json.loads sample_exn_text
    (run_script Json.loads sample_exn_text (utf8 "key")
       (Ask (Some (utf8 "식전? 식후?")) canned_reply) initial_session) /\
  chat_history
    (run_script Json.loads sample_exn_text (utf8 "key")
       (Ask (Some (utf8 "식전? 식후?")) canned_reply) initial_session) =
    [(role_user, utf8 "식전? 식후?"); (role_assistant, utf8 "식후에 드세요.")] /\
  paired (chat_history
    (run_script Json.loads sample_exn_text (utf8 "key")
       (Ask (Some (utf8 "식전? 식후?")) canned_reply) initial_session)).
Proof.
  assert (H : reachable Json.loads sample_exn_text
    (run_script Json.loads sample_exn_text (utf8 "key")
       (Ask (Some (utf8 "식전? 식후?")) canned_reply) initial_session)).
  { apply reachable_run, reachable_initial. }
  split; [exact H|]. split; [reflexivity|].
  exact (transcript_is_questions_and_answers Json.loads sample_exn_text _ H).
Defined.

Lemma delete_needs_every_name_witness :
  delete_all (Session None (PList (PDict <$> [name_only; morning_a])) []) =
    Session None (PList []) [] /\
  delete_all (Session None (PList (PDict <$> [name_only; ∅])) []) =
    Session None (PList (PDict <$> [name_only; ∅])) [].
Proof.
  split.
  - apply (proj1 (delete_needs_every_name None [name_only; morning_a] [])); [discriminate|].
    repeat constructor; eexists; reflexivity.
  - apply (proj2 (delete_needs_every_name None [name_only; ∅] [])).
    apply Exists_cons_tl, Exists_cons_hd. reflexivity.
Defined.
